(** * AniWeek: the weekly airing report, embedded from [main.go]

    The program is one linear pipeline: build a time-windowed GraphQL
    query, POST it, decode the answer, group the airing records by UTC
    calendar day ([organizeShowsByDay]) and print a styled report
    ([renderOutput]).

    Conventions of the embedding.
    - Go's [int] and [int64] are [Z]; the program does no arithmetic on
      them besides comparisons and the conversions written out below.
    - Go strings are byte strings: [string] with UTF-8 literals.
    - [time.Time] is the record [Time]: every instant the program handles
      is in the UTC location, so a value is its Unix second and its
      nanosecond.  The calendar functions of package [time] are written
      over [Z] (proleptic Gregorian calendar), which is what that package
      computes wherever its 64-bit seconds do not overflow, some 292
      billion years to either side of 1970.
    - [map[time.Time][]ShowInfo] is [gmap Time (list ShowInfo)]; the order
      in which [range] enumerates it is an explicit argument.
    - lipgloss styles are names ([Style]); what a style does to a text is
      the parameter [Render] of the rendering sections. *)

From Stdlib Require Import ZArith Lia List Bool Ascii String DecimalString
  DecimalZ.
From stdpp Require Import base decidable countable gmap list strings sorting.

Local Open Scope Z_scope.

(** ** Package [time], UTC only *)

Module GoTime.

Record Time := mkTime { unixSec : Z; nanos : Z }.

#[export] Instance Time_eq_dec : EqDecision Time.
Proof. solve_decision. Defined.

#[export] Instance Time_countable : Countable Time.
Proof.
  refine (inj_countable' (fun t => (unixSec t, nanos t))
                         (fun p => mkTime p.1 p.2) _).
  by intros [].
Defined.

Definition secondsPerMinute : Z := 60.
Definition secondsPerHour : Z := 3600.
Definition secondsPerDay : Z := 86400.
Definition daysPer400Years : Z := 146097.
Definition daysPer100Years : Z := 36524.
Definition daysPer4Years : Z := 1461.

(** Days from 0001-01-01 to 1970-01-01. *)
Definition unixEpochDays : Z := 719162.

(** [time.Unix(sec, 0).UTC()] *)
Definition Unix (sec : Z) : Time := mkTime sec 0.

(** [t.Unix()] *)
Definition toUnix (t : Time) : Z := unixSec t.

(** [t.After(u)] *)
Definition After (t u : Time) : bool :=
  (unixSec u <? unixSec t) || ((unixSec t =? unixSec u) && (nanos u <? nanos t)).

Definition isLeap (year : Z) : bool :=
  (year mod 4 =? 0) && (negb (year mod 100 =? 0) || (year mod 400 =? 0)).

(** [daysBefore[m]]: days in a non-leap year before month [m+1]. *)
Definition daysBefore (m : Z) : Z :=
  match m with
  | 0 => 0 | 1 => 31 | 2 => 59 | 3 => 90 | 4 => 120 | 5 => 151
  | 6 => 181 | 7 => 212 | 8 => 243 | 9 => 273 | 10 => 304 | 11 => 334
  | _ => 365
  end.

(** Days from 1970-01-01 to January 1 of [year]. *)
Definition daysSinceEpoch (year : Z) : Z :=
  let y := year - 1 in
  365 * y + y / 4 - y / 100 + y / 400 - unixEpochDays.

(** [norm(hi, lo, base)]: carry [lo] into [hi] so that [0 <= lo < base]. *)
Definition norm (hi lo base : Z) : Z * Z := (hi + lo / base, lo mod base).

(** [time.Date(year, month, day, hour, min, sec, nsec, time.UTC)] *)
Definition Date (year month day hour min sec nsec : Z) : Time :=
  let '(year, m) := norm year (month - 1) 12 in
  let '(sec, nsec) := norm sec nsec 1000000000 in
  let '(min, sec) := norm min sec 60 in
  let '(hour, min) := norm hour min 60 in
  let '(day, hour) := norm day hour 24 in
  let d := daysSinceEpoch year + daysBefore m in
  let d := if isLeap year && (3 <=? m + 1) then d + 1 else d in
  let d := d + (day - 1) in
  mkTime (d * secondsPerDay + hour * secondsPerHour + min * secondsPerMinute + sec)
         nsec.

(** Whole days since 1970-01-01 and the second within the day. *)
Definition unixDays (t : Time) : Z := unixSec t / secondsPerDay.
Definition secOfDay (t : Time) : Z := unixSec t mod secondsPerDay.

(** The calendar date of a day count: year, month (1..12), day of month.
    Cycles of 400, 100, 4 and 1 years are cut off in turn, then the month
    is estimated as [yday / 31] and adjusted. *)
Definition civil (days : Z) : Z * Z * Z :=
  let d := days + unixEpochDays in
  let n := d / daysPer400Years in
  let y := 400 * n in
  let d := d - daysPer400Years * n in
  let n := d / daysPer100Years in
  let n := n - Z.shiftr n 2 in
  let y := y + 100 * n in
  let d := d - daysPer100Years * n in
  let n := d / daysPer4Years in
  let y := y + 4 * n in
  let d := d - daysPer4Years * n in
  let n := d / 365 in
  let n := n - Z.shiftr n 2 in
  let y := y + n in
  let d := d - 365 * n in
  let year := y + 1 in
  let yday := d in
  if isLeap year && (yday =? 31 + 29 - 1) then (year, 2, 29)
  else
    let day := if isLeap year && (31 + 29 - 1 <? yday) then yday - 1 else yday in
    let month := day / 31 in
    let fin := daysBefore (month + 1) in
    let '(month, start) :=
      if fin <=? day then (month + 1, fin) else (month, daysBefore month) in
    (year, month + 1, day - start + 1).

Definition Year (t : Time) : Z := (civil (unixDays t)).1.1.
Definition Month (t : Time) : Z := (civil (unixDays t)).1.2.
Definition Day (t : Time) : Z := (civil (unixDays t)).2.
Definition Hour (t : Time) : Z := secOfDay t / secondsPerHour.
Definition Minute (t : Time) : Z := (secOfDay t mod secondsPerHour) / secondsPerMinute.
Definition Second (t : Time) : Z := secOfDay t mod secondsPerMinute.
Definition Nanosecond (t : Time) : Z := nanos t.

(** [t.Weekday()], Sunday = 0; 1970-01-01 was a Thursday. *)
Definition Weekday (t : Time) : Z := (unixDays t + 4) mod 7.

(** [t.AddDate(years, months, days)] *)
Definition AddDate (t : Time) (years months days : Z) : Time :=
  Date (Year t + years) (Month t + months) (Day t + days)
       (Hour t) (Minute t) (Second t) (Nanosecond t).

End GoTime.

Import GoTime.

(** ** Package [fmt] and number conversions *)

(** [fmt.Sprintf("%d", n)] *)
Definition fmtInt (n : Z) : string := NilZero.string_of_int (Z.to_int n).

(** Two digits, zero padded: what the layout elements [02] and [04] print
    for a number in 0..99. *)
Definition pad2 (n : Z) : string :=
  if n <? 10 then "0" +:+ fmtInt n else fmtInt n.

(** [float32(n)] for an integer [n], as the integer it denotes: exact up
    to 24 significant bits, beyond that rounded to the nearest
    representable value, ties to the even mantissa. *)
Definition float32 (n : Z) : Z :=
  let a := Z.abs n in
  if a <? 2 ^ 24 then n
  else
    let e := Z.log2 a - 23 in
    let q := Z.shiftr a e in
    let r := a - Z.shiftl q e in
    let half := Z.shiftl 1 (e - 1) in
    let q := if (half <? r) || ((r =? half) && Z.odd q) then q + 1 else q in
    Z.sgn n * Z.shiftl q e.

(** [fmt.Sprintf("%.0f", x)] for a float holding an integer: its digits. *)
Definition fmtFloat0 (x : Z) : string := fmtInt x.

Definition newline : string := String (ascii_of_nat 10) EmptyString.
Definition tab : string := String (ascii_of_nat 9) EmptyString.

(** ** Layouts of [Time.Format] used by the program *)

Definition longDayName (wd : Z) : string :=
  match wd with
  | 0 => "Sunday" | 1 => "Monday" | 2 => "Tuesday" | 3 => "Wednesday"
  | 4 => "Thursday" | 5 => "Friday" | _ => "Saturday"
  end.

Definition shortMonthName (m : Z) : string :=
  match m with
  | 1 => "Jan" | 2 => "Feb" | 3 => "Mar" | 4 => "Apr" | 5 => "May"
  | 6 => "Jun" | 7 => "Jul" | 8 => "Aug" | 9 => "Sep" | 10 => "Oct"
  | 11 => "Nov" | _ => "Dec"
  end.

(** [t.Format("Monday (Jan 02)")] *)
Definition Format_Monday_Jan_02 (t : Time) : string :=
  longDayName (Weekday t) +:+ " (" +:+ shortMonthName (Month t) +:+ " "
  +:+ pad2 (Day t) +:+ ")".

(** [t.Format("3:04 PM")] *)
Definition Format_3_04_PM (t : Time) : string :=
  let hr := Hour t mod 12 in
  let hr := if hr =? 0 then 12 else hr in
  fmtInt hr +:+ ":" +:+ pad2 (Minute t) +:+ " "
  +:+ (if 12 <=? Hour t then "PM" else "AM").

(** ** Data model *)

Record GraphQLRequest := { Query : string }.

(** [AiringSchedule.Media.Title] *)
Record MediaTitle := { Romaji : string; English : string }.

(** [AiringSchedule.Media]; its fields are [Title] and [AverageScore] in
    the source. *)
Record MediaInfo := { MediaTitleOf : MediaTitle; MediaAverageScore : Z }.

Record AiringSchedule := { Episode : Z; AiringAt : Z; Media : MediaInfo }.

(** [GraphQLResponse]: the list at [Data.Page.AiringSchedules]. *)
Record GraphQLResponse := { AiringSchedules : list AiringSchedule }.

Record ShowInfo := {
  Title : string;
  EpisodeNumber : Z;
  AverageScore : Z;
  AiringTime : Time
}.

#[export] Instance ShowInfo_eq_dec : EqDecision ShowInfo.
Proof. solve_decision. Defined.

(** ** The organizer *)

(** [m[k]] on a Go map: the zero value (a nil slice) at a missing key. *)
Definition bucket (showsByDay : gmap Time (list ShowInfo)) (k : Time)
  : list ShowInfo :=
  default [] (showsByDay !! k).

(** The body of the loop of [organizeShowsByDay], lines 166-179. *)
Definition organizeStep (showsByDay : gmap Time (list ShowInfo))
    (schedule : AiringSchedule) : gmap Time (list ShowInfo) :=
  let title := English (MediaTitleOf (Media schedule)) in
  let title :=
    if String.eqb title "" then Romaji (MediaTitleOf (Media schedule))
    else title in
  let airTime := Unix (AiringAt schedule) in
  let dayKey :=
    Date (Year airTime) (Month airTime) (Day airTime) 0 0 0 0 in
  <[dayKey := bucket showsByDay dayKey ++
              [ {| Title := title;
                   EpisodeNumber := Episode schedule;
                   AverageScore := MediaAverageScore (Media schedule);
                   AiringTime := airTime |} ]]> showsByDay.

Definition organizeShowsByDay (schedules : list AiringSchedule)
  : gmap Time (list ShowInfo) :=
  fold_left organizeStep schedules ∅.

(** What one iteration computes from its record: the title, the airing
    instant, the day key and the [ShowInfo]. *)
Definition scheduleTitle (schedule : AiringSchedule) : string :=
  let title := English (MediaTitleOf (Media schedule)) in
  if String.eqb title "" then Romaji (MediaTitleOf (Media schedule)) else title.

Definition scheduleAirTime (schedule : AiringSchedule) : Time :=
  Unix (AiringAt schedule).

Definition midnightOf (airTime : Time) : Time :=
  Date (Year airTime) (Month airTime) (Day airTime) 0 0 0 0.

Definition scheduleDayKey (schedule : AiringSchedule) : Time :=
  midnightOf (scheduleAirTime schedule).

Definition scheduleShow (schedule : AiringSchedule) : ShowInfo :=
  {| Title := scheduleTitle schedule;
     EpisodeNumber := Episode schedule;
     AverageScore := MediaAverageScore (Media schedule);
     AiringTime := scheduleAirTime schedule |}.

(** The records of a list that fall on day [k], in the list's order. *)
Definition onDay (k : Time) (schedules : list AiringSchedule)
  : list AiringSchedule :=
  filter (fun schedule => scheduleDayKey schedule = k) schedules.

(** The keys of a map; [range] yields them in some order. *)
Definition keysOf (showsByDay : gmap Time (list ShowInfo)) : list Time :=
  (map_to_list showsByDay).*1.

(** The UTC calendar day of a record, as a day number. *)
Definition utcDay (schedule : AiringSchedule) : Z := AiringAt schedule / 86400.

(** ** Package [sort] *)

(** [sort.Slice(s, less)] as the insertion sort that package [sort] runs
    on short slices: each element in turn moves left for as long as it is
    [less] than its left neighbour.  [prefix] is the sorted prefix, held
    right to left. *)
Fixpoint insertLeft {A} (less : A -> A -> bool) (x : A) (prefix : list A) : list A :=
  match prefix with
  | [] => [x]
  | y :: rest => if less x y then y :: insertLeft less x rest else x :: prefix
  end.

Definition sortSlice {A} (less : A -> A -> bool) (s : list A) : list A :=
  reverse (fold_left (fun prefix x => insertLeft less x prefix) s []).

(** Adjacent elements of the finished slice: the right one is not [less]
    than the left one. *)
Definition notLess {A} (less : A -> A -> bool) (x y : A) : Prop :=
  less x y = false.

(** Later instants first. *)
Definition descending (days : list Time) : Prop :=
  StronglySorted (fun t u => After t u = true) days.

(** ** The renderer *)

Inductive Style :=
  | titleStyle | episodeStyle | timeStyle | scoreStyle | noScoreStyle
  | dayHeaderStyle | dividerStyle | showEntryStyle | appStyle
  | subtleStyle   (* lipgloss.NewStyle().Foreground(subtleColor), line 220 *)
  | errorStyle.   (* the style local to printError *)

(** What the program writes: the calls of [output.WriteString], each
    tagged by the statement that makes it. *)
Inductive Piece :=
  | Header (text : string)    (* line 205 *)
  | Divider (text : string)   (* line 206 *)
  | Entry (text : string)     (* line 225 *)
  | Gap.                      (* line 230 *)

Definition pieceText (p : Piece) : string :=
  match p with
  | Header text | Divider text | Entry text => text +:+ newline
  | Gap => newline
  end.

Definition headerTexts (pieces : list Piece) : list string :=
  omap (fun p => if p is Header text then Some text else None) pieces.

Definition entryTexts (pieces : list Piece) : list string :=
  omap (fun p => if p is Entry text then Some text else None) pieces.

Definition dividerText : string :=
  "╌╌╌╌╌╌╌╌╌╌╌╌╌╌╌╌╌╌╌╌╌╌╌╌╌╌╌".

(** The effects of [main]. *)
Inductive Event :=
  | EvPost (url contentType body : string)   (* http.Post *)
  | EvClose                                  (* resp.Body.Close() *)
  | EvPrintln (text : string).               (* fmt.Println *)

Section Rendering.

(** [style.Render(text)]: lipgloss is an external collaborator. *)
Variable Render : Style -> string -> string.

(** The status indicator of lines 210-215. *)
Definition statusEmoji (score : Z) : string :=
  if 75 <? score then "🌟"
  else if score =? 0 then "📡"
  else "✨".

Definition renderScore (score : Z) : string :=
  if 0 <? score then
    Render scoreStyle ("★ " +:+ fmtFloat0 (float32 score) +:+ "/100")
  else Render noScoreStyle "★ No rating".

(** [entry] of lines 217-224. *)
Definition renderEntry (show : ShowInfo) : string :=
  let emoji := statusEmoji (AverageScore show) in
  Render showEntryStyle
    (emoji +:+ " "
     +:+ Render titleStyle (Title show)
     +:+ Render subtleStyle " • "
     +:+ Render episodeStyle ("Ep " +:+ fmtInt (EpisodeNumber show))
     +:+ Render timeStyle (" 🕒 " +:+ Format_3_04_PM (AiringTime show))
     +:+ renderScore (AverageScore show)).

(** [header] of line 204. *)
Definition dayHeader (day : Time) : string :=
  Render dayHeaderStyle ("📺 " +:+ Format_Monday_Jan_02 day).

(** The body of the loop over [days] (lines 199-232), at index [i]. *)
Definition renderDay (showsByDay : gmap Time (list ShowInfo)) (ndays : nat)
    (i : nat) (day : Time) : list Piece :=
  let shows := bucket showsByDay day in
  let dayFormatted := Format_Monday_Jan_02 day in
  [Header (Render dayHeaderStyle ("📺 " +:+ dayFormatted));
   Divider (Render dividerStyle dividerText)]
  ++ map (fun show => Entry (renderEntry show)) shows
  ++ (if Z.of_nat i <? Z.of_nat ndays - 1 then [Gap] else []).

(** [days] after line 196: the keys as [range] yields them, sorted. *)
Definition sortedDays (rangeOrder : list Time) : list Time :=
  sortSlice After rangeOrder.

(** Everything written to [output], in order. *)
Definition renderPieces (rangeOrder : list Time)
    (showsByDay : gmap Time (list ShowInfo)) : list Piece :=
  let days := sortedDays rangeOrder in
  concat (imap (renderDay showsByDay (length days)) days).

(** [output.String()] *)
Definition builderString (pieces : list Piece) : string :=
  String.concat "" (map pieceText pieces).

Definition renderOutput (rangeOrder : list Time)
    (showsByDay : gmap Time (list ShowInfo)) : list Event :=
  [EvPrintln (Render appStyle (builderString (renderPieces rangeOrder showsByDay)))].

Definition printError (context err : string) : list Event :=
  [EvPrintln (Render errorStyle (context +:+ ": " +:+ err))].

End Rendering.

(** ** The query and the pipeline *)

Definition queryHead : string :=
  newline
  +:+ tab +:+ "{" +:+ newline
  +:+ tab +:+ tab +:+ "Page(perPage: 100) {" +:+ newline
  +:+ tab +:+ tab +:+ tab +:+ "airingSchedules(airingAt_greater: ".

Definition queryMiddle : string := ", airingAt_lesser: ".

Definition queryTail : string :=
  ", sort: TIME_DESC) {" +:+ newline
  +:+ tab +:+ tab +:+ tab +:+ tab +:+ "episode" +:+ newline
  +:+ tab +:+ tab +:+ tab +:+ tab +:+ "airingAt" +:+ newline
  +:+ tab +:+ tab +:+ tab +:+ tab +:+ "media {" +:+ newline
  +:+ tab +:+ tab +:+ tab +:+ tab +:+ tab +:+ "title {" +:+ newline
  +:+ tab +:+ tab +:+ tab +:+ tab +:+ tab +:+ tab +:+ "romaji" +:+ newline
  +:+ tab +:+ tab +:+ tab +:+ tab +:+ tab +:+ tab +:+ "english" +:+ newline
  +:+ tab +:+ tab +:+ tab +:+ tab +:+ tab +:+ "}" +:+ newline
  +:+ tab +:+ tab +:+ tab +:+ tab +:+ tab +:+ "averageScore" +:+ newline
  +:+ tab +:+ tab +:+ tab +:+ tab +:+ "}" +:+ newline
  +:+ tab +:+ tab +:+ tab +:+ "}" +:+ newline
  +:+ tab +:+ tab +:+ "}" +:+ newline
  +:+ tab +:+ "}" +:+ newline
  +:+ tab.

(** [query] of lines 107-126, from [now = time.Now().UTC()]. *)
Definition buildQuery (now : Time) : string :=
  let sevenDaysAgo := AddDate now 0 0 (-7) in
  queryHead +:+ fmtInt (toUnix sevenDaysAgo) +:+ queryMiddle
  +:+ fmtInt (toUnix now) +:+ queryTail.

(** A Go result pair [(v, err)]: the value, or the error's text. *)
Definition result (A : Type) : Type := A + string.

(** [*http.Response]: [Body] is what reading the stream to its end gives. *)
Record Response := { Body : result string }.

(** What the run does not decide itself. *)
Record World := {
  time_Now : Time;
  json_Marshal : GraphQLRequest -> result string;
  http_Post : string -> string -> string -> result Response;
  json_Unmarshal : string -> result GraphQLResponse;
  mapRange : gmap Time (list ShowInfo) -> list Time
}.

Definition noEpisodes : string := "✨ No new episodes aired in the past week ✨".

Definition main (Render : Style -> string -> string) (w : World) : list Event :=
  let now := time_Now w in
  let query := buildQuery now in
  match json_Marshal w {| Query := query |} with
  | inr err => printError Render "Error creating request" err
  | inl requestBody =>
    EvPost "https://graphql.anilist.co" "application/json" requestBody ::
    match http_Post w "https://graphql.anilist.co" "application/json" requestBody with
    | inr err => printError Render "Error making request" err
    | inl resp =>
      (match Body resp with
       | inr err => printError Render "Error reading response" err
       | inl body =>
         match json_Unmarshal w body with
         | inr err => printError Render "Error parsing response" err
         | inl response =>
           let showsByDay := organizeShowsByDay (AiringSchedules response) in
           if (size showsByDay =? 0)%nat then
             [EvPrintln (Render appStyle noEpisodes)]
           else renderOutput Render (mapRange w showsByDay) showsByDay
         end
       end) ++ [EvClose]
    end
  end.

(** What the run prints, and the requests it sends. *)
Definition stdout (trace : list Event) : list string :=
  omap (fun e => if e is EvPrintln text then Some text else None) trace.

Definition isPost (e : Event) : bool := if e is EvPost _ _ _ then true else false.

Definition posts (trace : list Event) : nat := length (List.filter isPost trace).

Definition endpoint : string := "https://graphql.anilist.co".
Definition contentType : string := "application/json".

(** The four ways a run fails, with the label [main] passes to
    [printError] and the error's text. *)
Inductive Failure (w : World) : string -> string -> Prop :=
  | SerializationFailure err :
      json_Marshal w {| Query := buildQuery (time_Now w) |} = inr err ->
      Failure w "Error creating request" err
  | TransportFailure requestBody err :
      json_Marshal w {| Query := buildQuery (time_Now w) |} = inl requestBody ->
      http_Post w endpoint contentType requestBody = inr err ->
      Failure w "Error making request" err
  | ReadFailure requestBody resp err :
      json_Marshal w {| Query := buildQuery (time_Now w) |} = inl requestBody ->
      http_Post w endpoint contentType requestBody = inl resp ->
      Body resp = inr err ->
      Failure w "Error reading response" err
  | DecodeFailure requestBody resp body err :
      json_Marshal w {| Query := buildQuery (time_Now w) |} = inl requestBody ->
      http_Post w endpoint contentType requestBody = inl resp ->
      Body resp = inl body ->
      json_Unmarshal w body = inr err ->
      Failure w "Error parsing response" err.

(** A run that gets as far as the decoded response. *)
Definition Decoded (w : World) (requestBody : string) (response : GraphQLResponse)
  : Prop :=
  exists resp body,
    json_Marshal w {| Query := buildQuery (time_Now w) |} = inl requestBody /\
    http_Post w endpoint contentType requestBody = inl resp /\
    Body resp = inl body /\
    json_Unmarshal w body = inl response.

(** ** Runs on concrete inputs *)

Definition plain (_ : Style) (text : string) : string := text.

Definition mkSchedule (ep at_ : Z) (romaji english : string) (score : Z)
  : AiringSchedule :=
  {| Episode := ep; AiringAt := at_;
     Media := {| MediaTitleOf := {| Romaji := romaji; English := english |};
                 MediaAverageScore := score |} |}.

Definition sample : list AiringSchedule :=
  [ mkSchedule 5 1714737600 "Sousou no Frieren" "Frieren" 90;
    mkSchedule 12 1714730400 "Kaijuu 8-gou" "" 0;
    mkSchedule 3 1714651200 "Baz" "Bar" 40;
    mkSchedule 7 1714564800 "Foo" "" 75 ].

Definition mkShow (title : string) (ep score : Z) (t : Time) : ShowInfo :=
  {| Title := title; EpisodeNumber := ep; AverageScore := score; AiringTime := t |}.

Definition may01 : Time := Date 2024 5 1 0 0 0 0.
Definition may02 : Time := Date 2024 5 2 0 0 0 0.
Definition may03 : Time := Date 2024 5 3 0 0 0 0.

(** Three records of 2024-05-03, latest first. *)
Definition sameDay : list AiringSchedule :=
  [ mkSchedule 5 1714737600 "Sousou no Frieren" "Frieren" 90;
    mkSchedule 12 1714730400 "Kaijuu 8-gou" "" 0;
    mkSchedule 2 1714701600 "Baz" "Bar" 40 ].

(** A world with canned answers; [range] yields the keys in the order of
    [map_to_list]. *)
Definition cannedWorld (now : Time) (marshal : result string)
    (reply : result Response) (decoded : result GraphQLResponse) : World :=
  {| time_Now := now;
     json_Marshal := fun _ => marshal;
     http_Post := fun _ _ _ => reply;
     json_Unmarshal := fun _ => decoded;
     mapRange := keysOf |}.

(** [hasInfix needle hay]: [needle] occurs in [hay]. *)
Fixpoint hasInfix (needle hay : string) : bool :=
  String.prefix needle hay
  || match hay with
     | EmptyString => false
     | String _ rest => hasInfix needle rest
     end.

(** ** Checking the calendar over one cycle *)

(** [allFrom f s n]: [f] holds at [s], [s+1], ..., [s+n-1]. *)
Fixpoint allFrom (f : Z -> bool) (s : Z) (n : nat) : bool :=
  match n with
  | O => true
  | S k => f s && allFrom f (s + 1) k
  end.

(** The day count [Date] computes for a month in 1..12 and a day. *)
Definition dateDays (year month day : Z) : Z :=
  let d := daysSinceEpoch year + daysBefore (month - 1) in
  let d := if isLeap year && (3 <=? month) then d + 1 else d in
  d + (day - 1).

(** One 400-year cycle, checked day by day: the date of day [r] of the
    cycle that starts on 0001-01-01 has a month in 1..12, and [dateDays]
    leads back to [r]. *)
Definition cycleDayOk (r : Z) : bool :=
  let '(y, m, d) := civil (r - unixEpochDays) in
  (1 <=? m) && (m <=? 12) && (1 <=? d) && (d <=? 31)
  && (dateDays y m d =? r - unixEpochDays).

(** ** Further notions used in the statements *)

(** Airing times as the API is asked to send them: latest first. *)
Definition latestFirst (schedules : list AiringSchedule) : Prop :=
  Sorted (fun a b => AiringAt b <= AiringAt a) schedules.

Definition isGap (p : Piece) : bool := if p is Gap then true else false.
Definition isDivider (p : Piece) : bool := if p is Divider _ then true else false.

(** How many pieces of a kind were written. *)
Definition countPieces (kind : Piece -> bool) (pieces : list Piece) : nat :=
  length (List.filter kind pieces).

Definition isClose (e : Event) : bool := if e is EvClose then true else false.

Definition closes (trace : list Event) : nat := length (List.filter isClose trace).

(** Reading a number back from its decimal digits. *)
Definition parseInt (s : string) : option Z :=
  Z.of_int <$> NilZero.int_of_string s.

(** * Proofs *)

(** ** Facts about the calendar *)

Lemma allFrom_spec f n : forall s i,
  allFrom f s n = true -> s <= i < s + Z.of_nat n -> f i = true.
Proof.
  induction n as [|n IH]; intros s i H Hi; [lia|].
  cbn [allFrom] in H. apply andb_prop in H as [H0 H1].
  destruct (Z.eq_dec i s) as [->|Hne]; [exact H0|].
  apply (IH (s + 1)); [exact H1|lia].
Qed.

Lemma isLeap_shift y q : isLeap (y + 400 * q) = isLeap y.
Proof.
  unfold isLeap.
  replace (y + 400 * q) with (y + (100 * q) * 4) at 1 by ring.
  replace (y + 400 * q) with (y + (4 * q) * 100) at 1 by ring.
  replace (y + 400 * q) with (y + q * 400) by ring.
  by rewrite !Z_mod_plus_full.
Qed.

Lemma daysSinceEpoch_shift y q :
  daysSinceEpoch (y + 400 * q) = daysSinceEpoch y + daysPer400Years * q.
Proof.
  unfold daysSinceEpoch, daysPer400Years. cbv zeta.
  replace (y + 400 * q - 1) with (y - 1 + (100 * q) * 4) at 2 by ring.
  replace (y + 400 * q - 1) with (y - 1 + (4 * q) * 100) at 2 by ring.
  replace (y + 400 * q - 1) with (y - 1 + q * 400) at 2 by ring.
  rewrite !Z.div_add by lia. lia.
Qed.

Lemma dateDays_shift y m d q :
  dateDays (y + 400 * q) m d = dateDays y m d + daysPer400Years * q.
Proof.
  unfold dateDays. cbv zeta. rewrite isLeap_shift, daysSinceEpoch_shift.
  destruct (isLeap y && (3 <=? m)); lia.
Qed.

Lemma civil_shift D q :
  civil (D + daysPer400Years * q) =
  ((civil D).1.1 + 400 * q, (civil D).1.2, (civil D).2).
Proof.
  unfold civil. cbv zeta.
  replace (D + daysPer400Years * q + unixEpochDays)
    with (D + unixEpochDays + q * daysPer400Years) by ring.
  rewrite Z.div_add by (unfold daysPer400Years; lia).
  set (n0 := (D + unixEpochDays) / daysPer400Years).
  replace (D + unixEpochDays + q * daysPer400Years - daysPer400Years * (n0 + q))
    with (D + unixEpochDays - daysPer400Years * n0) by ring.
  set (d0 := D + unixEpochDays - daysPer400Years * n0).
  set (n1 := d0 / daysPer100Years - Z.shiftr (d0 / daysPer100Years) 2).
  set (d1 := d0 - daysPer100Years * n1).
  set (n2 := d1 / daysPer4Years).
  set (d2 := d1 - daysPer4Years * n2).
  set (n3 := d2 / 365 - Z.shiftr (d2 / 365) 2).
  set (d3 := d2 - 365 * n3).
  replace (400 * (n0 + q) + 100 * n1 + 4 * n2 + n3 + 1)
    with (400 * n0 + 100 * n1 + 4 * n2 + n3 + 1 + 400 * q) by ring.
  rewrite isLeap_shift.
  set (yr := 400 * n0 + 100 * n1 + 4 * n2 + n3 + 1).
  destruct (isLeap yr && (d3 =? 31 + 29 - 1)); [reflexivity|].
  set (dd := if isLeap yr && (31 + 29 - 1 <? d3) then d3 - 1 else d3).
  destruct (daysBefore (dd / 31 + 1) <=? dd); reflexivity.
Qed.

Lemma cycle_ok : allFrom cycleDayOk 0 (Z.to_nat daysPer400Years) = true.
Proof. vm_cast_no_check (eq_refl true). Qed.

Lemma civil_inverse D :
  let '(y, m, d) := civil D in
  1 <= m <= 12 /\ 1 <= d <= 31 /\ dateDays y m d = D.
Proof.
  set (q := (D + unixEpochDays) / daysPer400Years).
  set (r := (D + unixEpochDays) mod daysPer400Years).
  assert (Hr : 0 <= r < daysPer400Years)
    by (apply Z.mod_pos_bound; reflexivity).
  assert (HD : D = (r - unixEpochDays) + daysPer400Years * q).
  { pose proof (Z.div_mod (D + unixEpochDays) daysPer400Years) as E.
    fold q r in E. unfold daysPer400Years in *. lia. }
  pose proof (allFrom_spec _ _ 0 r cycle_ok) as Hc.
  rewrite Z2Nat.id in Hc by (unfold daysPer400Years; lia).
  specialize (Hc ltac:(lia)). unfold cycleDayOk in Hc.
  rewrite HD, civil_shift.
  destruct (civil (r - unixEpochDays)) as [[y m] d]. cbn [fst snd].
  rewrite dateDays_shift.
  repeat (apply andb_prop in Hc as [Hc ?]). lia.
Qed.

Lemma unixSec_split t :
  unixSec t = secondsPerDay * unixDays t + secOfDay t /\
  0 <= secOfDay t < secondsPerDay.
Proof.
  unfold unixDays, secOfDay, secondsPerDay. split.
  - apply Z.div_mod. lia.
  - apply Z.mod_pos_bound. lia.
Qed.

(** [Date] at the calendar date of [t], [k] days later, at some time of
    day: the instant that many seconds after the midnight that starts
    [t]'s day. *)
Lemma Date_of_civil t k h mi s ns :
  0 <= h < 24 -> 0 <= mi < 60 -> 0 <= s < 60 -> 0 <= ns < 1000000000 ->
  Date (Year t) (Month t) (Day t + k) h mi s ns =
  mkTime (secondsPerDay * (unixDays t + k) + h * 3600 + mi * 60 + s) ns.
Proof.
  intros Hh Hmi Hs Hns.
  pose proof (civil_inverse (unixDays t)) as Hc.
  unfold Year, Month, Day.
  destruct (civil (unixDays t)) as [[y m] d]. cbn [fst snd].
  destruct Hc as (Hm & Hd & Hdays).
  unfold Date, norm.
  rewrite (Z.div_small (m - 1) 12), (Z.mod_small (m - 1) 12) by lia.
  rewrite (Z.div_small ns), (Z.mod_small ns) by lia.
  rewrite !Z.add_0_r, (Z.div_small s), (Z.mod_small s) by lia.
  rewrite !Z.add_0_r, (Z.div_small mi), (Z.mod_small mi) by lia.
  rewrite !Z.add_0_r, (Z.div_small h), (Z.mod_small h) by lia.
  rewrite !Z.add_0_r.
  unfold dateDays in Hdays. cbv zeta in Hdays.
  replace (m - 1 + 1) with m by ring.
  unfold secondsPerDay, secondsPerHour, secondsPerMinute in *.
  f_equal. destruct (isLeap y && (3 <=? m)); lia.
Qed.

(** Truncation to the calendar day is rounding the Unix second down to a
    multiple of 86400. *)
Lemma Date_midnight t :
  Date (Year t) (Month t) (Day t) 0 0 0 0 =
  mkTime (secondsPerDay * unixDays t) 0.
Proof.
  replace (Day t) with (Day t + 0) by ring.
  rewrite Date_of_civil by lia. f_equal. lia.
Qed.

Lemma time_of_day_bounds t :
  0 <= Hour t < 24 /\ 0 <= Minute t < 60 /\ 0 <= Second t < 60 /\
  secOfDay t = Hour t * 3600 + Minute t * 60 + Second t.
Proof.
  destruct (unixSec_split t) as [_ Hb].
  unfold Hour, Minute, Second, secondsPerHour, secondsPerMinute, secondsPerDay in *.
  set (x := secOfDay t) in *.
  pose proof (Z.div_mod x 3600 ltac:(lia)).
  pose proof (Z.mod_pos_bound x 3600 ltac:(lia)).
  pose proof (Z.div_mod (x mod 3600) 60 ltac:(lia)).
  pose proof (Z.mod_pos_bound (x mod 3600) 60 ltac:(lia)).
  pose proof (Z.mod_pos_bound x 60 ltac:(lia)).
  assert (x mod 60 = (x mod 3600) mod 60).
  { symmetry. apply Z.mod_mod_divide. exists 60. reflexivity. }
  assert (0 <= x / 3600 < 24).
  { split; [apply Z.div_pos; lia|apply Z.div_lt_upper_bound; lia]. }
  assert (0 <= x mod 3600 / 60 < 60).
  { split; [apply Z.div_pos; lia|apply Z.div_lt_upper_bound; lia]. }
  lia.
Qed.

(** On a UTC instant, [AddDate(0, 0, k)] moves the clock by [k] days of
    86400 seconds. *)
Lemma AddDate_days t k :
  0 <= nanos t < 1000000000 ->
  AddDate t 0 0 k = mkTime (unixSec t + secondsPerDay * k) (nanos t).
Proof.
  intros Hns. unfold AddDate, Nanosecond.
  destruct (time_of_day_bounds t) as (Hh & Hmi & Hs & Hsod).
  rewrite !Z.add_0_r, Date_of_civil by assumption.
  destruct (unixSec_split t) as [Hsplit _].
  f_equal. lia.
Qed.

(** ** The organizer: what each bucket holds *)

Section Organizer.

Implicit Types (schedules : list AiringSchedule) (k : Time)
  (showsByDay : gmap Time (list ShowInfo)).

Lemma organizeStep_eq showsByDay schedule :
  organizeStep showsByDay schedule =
  <[scheduleDayKey schedule :=
      bucket showsByDay (scheduleDayKey schedule) ++ [scheduleShow schedule]]>
    showsByDay.
Proof. reflexivity. Qed.

Lemma bucket_organizeStep showsByDay schedule k :
  bucket (organizeStep showsByDay schedule) k =
  bucket showsByDay k ++ map scheduleShow (onDay k [schedule]).
Proof.
  rewrite organizeStep_eq. unfold bucket, onDay.
  destruct (decide (scheduleDayKey schedule = k)) as [<-|Hne].
  - rewrite lookup_insert_eq, filter_cons_True by done. done.
  - rewrite lookup_insert_ne, filter_cons_False by done.
    cbn. by rewrite app_nil_r.
Qed.

Lemma bucket_fold schedules : forall showsByDay k,
  bucket (fold_left organizeStep schedules showsByDay) k =
  bucket showsByDay k ++ map scheduleShow (onDay k schedules).
Proof.
  induction schedules as [|schedule rest IH]; intros showsByDay k.
  - cbn. by rewrite app_nil_r.
  - cbn [fold_left]. rewrite IH, bucket_organizeStep.
    unfold onDay. rewrite <- app_assoc, <- map_app, <- filter_app. done.
Qed.

Lemma dom_fold schedules : forall showsByDay,
  dom (fold_left organizeStep schedules showsByDay) =
  dom showsByDay ∪ list_to_set (map scheduleDayKey schedules).
Proof.
  induction schedules as [|schedule rest IH]; intros showsByDay.
  - cbn [map list_to_set]. by rewrite (right_id_L ∅ (∪)).
  - cbn [fold_left map list_to_set].
    rewrite IH, organizeStep_eq, dom_insert_L, (assoc_L (∪)).
    f_equal. apply (comm_L (∪)).
Qed.

(** No bucket is ever empty: a key enters the map with its first show. *)
Lemma fold_nonempty schedules : forall showsByDay,
  (forall k shows, showsByDay !! k = Some shows -> shows <> []) ->
  forall k shows,
    fold_left organizeStep schedules showsByDay !! k = Some shows -> shows <> [].
Proof.
  induction schedules as [|schedule rest IH]; intros showsByDay Hinv; [exact Hinv|].
  cbn [fold_left]. apply IH. intros k shows. rewrite organizeStep_eq.
  destruct (decide (scheduleDayKey schedule = k)) as [<-|Hne].
  - rewrite lookup_insert_eq. intros [= <-]. by destruct (bucket _ _).
  - rewrite lookup_insert_ne by done. apply Hinv.
Qed.

Lemma organize_bucket schedules k :
  bucket (organizeShowsByDay schedules) k = map scheduleShow (onDay k schedules).
Proof. unfold organizeShowsByDay. by rewrite bucket_fold. Qed.

Lemma organize_dom schedules :
  dom (organizeShowsByDay schedules) = list_to_set (map scheduleDayKey schedules).
Proof.
  unfold organizeShowsByDay. by rewrite dom_fold, dom_empty_L, (left_id_L ∅ (∪)).
Qed.

Lemma organize_lookup_Some schedules k shows :
  organizeShowsByDay schedules !! k = Some shows ->
  shows = map scheduleShow (onDay k schedules) /\ shows <> [].
Proof.
  intros H. split.
  - rewrite <- organize_bucket. unfold bucket. by rewrite H.
  - revert H. apply fold_nonempty. intros ? ?. by rewrite lookup_empty.
Qed.

Lemma organize_lookup_elem schedules schedule :
  schedule ∈ schedules ->
  organizeShowsByDay schedules !! scheduleDayKey schedule =
  Some (map scheduleShow (onDay (scheduleDayKey schedule) schedules)).
Proof.
  intros Hin.
  assert (Hd : scheduleDayKey schedule ∈ dom (organizeShowsByDay schedules)).
  { rewrite organize_dom. apply elem_of_list_to_set, list_elem_of_fmap.
    by exists schedule. }
  apply elem_of_dom in Hd as [shows Hs]. rewrite Hs.
  by apply organize_lookup_Some in Hs as [-> _].
Qed.

End Organizer.

(** ** Insertion sort *)

Section InsertionSort.

Context {A : Type} (less : A -> A -> bool).

Hypothesis less_asym : forall x y, less x y = true -> less y x = false.

Lemma insertLeft_perm x prefix : insertLeft less x prefix ≡ₚ x :: prefix.
Proof.
  induction prefix as [|y rest IH]; [done|].
  cbn. destruct (less x y); [|done].
  rewrite IH. apply Permutation_swap.
Qed.

Lemma insertLeft_HdRel x y prefix :
  notLess less y x -> HdRel (notLess less) y prefix ->
  HdRel (notLess less) y (insertLeft less x prefix).
Proof.
  intros Hyx Hd. destruct prefix as [|z rest]; cbn.
  - by constructor.
  - destruct (less x z); constructor; [by inversion Hd|done].
Qed.

Lemma insertLeft_sorted x prefix :
  Sorted (notLess less) prefix -> Sorted (notLess less) (insertLeft less x prefix).
Proof.
  induction 1 as [|y rest Hs IH Hd]; cbn.
  - repeat constructor.
  - destruct (less x y) eqn:E.
    + constructor; [exact IH|]. apply insertLeft_HdRel; [|exact Hd].
      by apply less_asym.
    + constructor; [by constructor|]. by constructor.
Qed.

Lemma insertion_fold_perm s : forall prefix,
  fold_left (fun prefix x => insertLeft less x prefix) s prefix ≡ₚ s ++ prefix.
Proof.
  induction s as [|x s IH]; intros prefix; cbn; [done|].
  by rewrite IH, insertLeft_perm, Permutation_middle.
Qed.

Lemma insertion_fold_sorted s : forall prefix,
  Sorted (notLess less) prefix ->
  Sorted (notLess less) (fold_left (fun prefix x => insertLeft less x prefix) s prefix).
Proof.
  induction s as [|x s IH]; intros prefix Hs; cbn; [done|].
  by apply IH, insertLeft_sorted.
Qed.

Lemma sortSlice_perm s : sortSlice less s ≡ₚ s.
Proof.
  unfold sortSlice.
  by rewrite reverse_Permutation, insertion_fold_perm, app_nil_r.
Qed.

(** In the sorted slice no element is [less] than its left neighbour. *)
Lemma sortSlice_sorted s : Sorted (flip (notLess less)) (sortSlice less s).
Proof.
  unfold sortSlice. apply Sorted_reverse, insertion_fold_sorted. constructor.
Qed.

End InsertionSort.

(** ** The order of instants *)

Ltac after_lia :=
  unfold flip, notLess, After in *;
  repeat match goal with t : Time |- _ => destruct t end;
  cbn [unixSec nanos] in *;
  rewrite ?orb_true_iff, ?orb_false_iff, ?andb_true_iff, ?andb_false_iff,
    ?Z.ltb_lt, ?Z.ltb_ge, ?Z.eqb_eq, ?Z.eqb_neq in *;
  try lia.

Lemma After_asym t u : After t u = true -> After u t = false.
Proof. after_lia. Qed.

Lemma After_total t u : t <> u -> After t u = false -> After u t = true.
Proof.
  destruct t as [ts tn], u as [us un]. intros Hne H.
  assert (ts <> us \/ tn <> un)
    by (destruct (Z.eq_dec ts us), (Z.eq_dec tn un); subst; tauto).
  after_lia.
Qed.

#[local] Instance notAfter_trans : Transitive (flip (notLess After)).
Proof. intros t u v H1 H2. after_lia. Qed.

#[local] Instance notAfter_antisym : AntiSymm (=) (flip (notLess After)).
Proof.
  intros [ts tn] [us un] H1 H2. after_lia.
  f_equal; lia.
Qed.

Lemma sortedDays_perm rangeOrder : sortedDays rangeOrder ≡ₚ rangeOrder.
Proof. apply sortSlice_perm. Qed.

Lemma sortedDays_length rangeOrder :
  length (sortedDays rangeOrder) = length rangeOrder.
Proof. by rewrite sortedDays_perm. Qed.

Lemma sortedDays_descending rangeOrder :
  NoDup rangeOrder -> descending (sortedDays rangeOrder).
Proof.
  intros Hnd. rewrite <- sortedDays_perm in Hnd.
  pose proof (Sorted_StronglySorted _ _
    (sortSlice_sorted After After_asym rangeOrder)) as Hs.
  fold (sortedDays rangeOrder) in Hs.
  induction Hs as [|t days Hs IH Hall]; [constructor|].
  apply NoDup_cons in Hnd as [Hnotin Hnd].
  constructor; [by apply IH|].
  rewrite Forall_forall in *. intros u Hu.
  apply After_total; [|by apply Hall]. by intros ->.
Qed.

(** The sorted slice depends on the keys only, not on the order in which
    [range] yields them. *)
Lemma sortedDays_order_irrelevant order1 order2 :
  order1 ≡ₚ order2 -> sortedDays order1 = sortedDays order2.
Proof.
  intros Hp.
  apply (Sorted_unique (flip (notLess After)));
    try apply (sortSlice_sorted After After_asym).
  by rewrite !sortedDays_perm.
Qed.

(** ** The pieces of the report *)

Section Pieces.

Variable Render : Style -> string -> string.

Lemma renderDay_headers showsByDay ndays i day :
  headerTexts (renderDay Render showsByDay ndays i day) = [dayHeader Render day].
Proof.
  unfold renderDay, headerTexts. cbv zeta. cbn [app omap list_omap].
  rewrite omap_app.
  replace (omap _ (map _ _)) with (@nil string).
  2:{ induction (bucket showsByDay day); [done|by cbn]. }
  by destruct (_ <? _).
Qed.

Lemma renderDay_entries showsByDay ndays i day :
  entryTexts (renderDay Render showsByDay ndays i day) =
  map (renderEntry Render) (bucket showsByDay day).
Proof.
  unfold renderDay, entryTexts. cbv zeta. cbn [app omap list_omap].
  rewrite omap_app.
  replace (omap _ (if _ <? _ then _ else _)) with (@nil string)
    by (by destruct (_ <? _)).
  rewrite app_nil_r.
  induction (bucket showsByDay day) as [|show shows IH]; [done|].
  cbn. by rewrite <- IH.
Qed.

Lemma imap_renderDay_headers showsByDay ndays days : forall (g : nat -> nat),
  headerTexts (concat (imap (fun i => renderDay Render showsByDay ndays (g i)) days))
  = map (dayHeader Render) days.
Proof.
  induction days as [|day days IH]; intros g; [done|].
  cbn [imap concat map]. unfold headerTexts in *. rewrite omap_app.
  fold (headerTexts (renderDay Render showsByDay ndays (g 0%nat) day)).
  rewrite renderDay_headers. cbn [app]. f_equal.
  apply (IH (fun i => g (S i))).
Qed.

Lemma imap_renderDay_entries showsByDay ndays days : forall (g : nat -> nat),
  entryTexts (concat (imap (fun i => renderDay Render showsByDay ndays (g i)) days))
  = concat (map (fun day => map (renderEntry Render) (bucket showsByDay day)) days).
Proof.
  induction days as [|day days IH]; intros g; [done|].
  cbn [imap concat map]. unfold entryTexts in *. rewrite omap_app.
  fold (entryTexts (renderDay Render showsByDay ndays (g 0%nat) day)).
  rewrite renderDay_entries. f_equal.
  apply (IH (fun i => g (S i))).
Qed.

Lemma renderPieces_headers rangeOrder showsByDay :
  headerTexts (renderPieces Render rangeOrder showsByDay) =
  map (dayHeader Render) (sortedDays rangeOrder).
Proof. apply (imap_renderDay_headers _ _ _ (fun i => i)). Qed.

Lemma renderPieces_entries rangeOrder showsByDay :
  entryTexts (renderPieces Render rangeOrder showsByDay) =
  concat (map (fun day => map (renderEntry Render) (bucket showsByDay day))
              (sortedDays rangeOrder)).
Proof. apply (imap_renderDay_entries _ _ _ (fun i => i)). Qed.

End Pieces.

(** ** Truncation to the day *)

Lemma midnightOf_floor t :
  midnightOf t = mkTime (86400 * (unixSec t / 86400)) 0.
Proof.
  unfold midnightOf. rewrite Date_midnight. unfold secondsPerDay, unixDays.
  reflexivity.
Qed.

Lemma midnightOf_fields t :
  (Year (midnightOf t), Month (midnightOf t), Day (midnightOf t))
    = (Year t, Month t, Day t) /\
  (Hour (midnightOf t), Minute (midnightOf t), Second (midnightOf t),
   Nanosecond (midnightOf t)) = (0, 0, 0, 0).
Proof.
  rewrite midnightOf_floor.
  unfold Year, Month, Day, Hour, Minute, Second, Nanosecond, unixDays, secOfDay,
    secondsPerDay. cbn [unixSec nanos].
  rewrite (Z.mul_comm 86400), Z.div_mul, Z.mod_mul by lia. done.
Qed.

Lemma midnightOf_same_day t u :
  midnightOf t = midnightOf u <-> unixSec t / 86400 = unixSec u / 86400.
Proof.
  rewrite !midnightOf_floor. split; [|by intros ->].
  intros [= H]. lia.
Qed.

(** C1.  Day-bucket invariant of [organizeShowsByDay].  The [ShowInfo] of
    every record of the list is stored under that record's day key; and
    whenever a [show] sits in the bucket of key [k], then [k] is [show]'s
    airing time truncated to midnight UTC: [k] is [time.Date] of the year,
    month and day of the airing time with a zero time of day, its Unix
    second is the airing second rounded down to a multiple of 86400, it
    has the same year, month and day, its hour, minute, second and
    nanosecond are zero, and no bucket under another key holds [show]. *)
Theorem day_bucket_invariant (schedules : list AiringSchedule) :
  let showsByDay := organizeShowsByDay schedules in
  (forall schedule, schedule ∈ schedules ->
     exists shows,
       showsByDay !! midnightOf (Unix (AiringAt schedule)) = Some shows /\
       scheduleShow schedule ∈ shows) /\
  (forall k shows show, showsByDay !! k = Some shows -> show ∈ shows ->
     let t := AiringTime show in
     k = Date (Year t) (Month t) (Day t) 0 0 0 0 /\
     k = mkTime (86400 * (unixSec t / 86400)) 0 /\
     (Year k, Month k, Day k) = (Year t, Month t, Day t) /\
     (Hour k, Minute k, Second k, Nanosecond k) = (0, 0, 0, 0) /\
     forall k' shows',
       showsByDay !! k' = Some shows' -> show ∈ shows' -> k' = k).
Proof.
  cbv zeta. split.
  - intros schedule Hin. eexists. split.
    + apply (organize_lookup_elem _ _ Hin).
    + apply list_elem_of_fmap. exists schedule. split; [done|].
      apply list_elem_of_filter. done.
  - assert (Hkey : forall k shows show,
      organizeShowsByDay schedules !! k = Some shows -> show ∈ shows ->
      k = midnightOf (AiringTime show)).
    { intros k shows show Hk Hs.
      apply organize_lookup_Some in Hk as [-> _].
      apply list_elem_of_fmap in Hs as (schedule & -> & Hs).
      apply list_elem_of_filter in Hs as [Hs _]. by rewrite <- Hs. }
    intros k shows show Hk Hs.
    pose proof (Hkey _ _ _ Hk Hs) as ->.
    split; [done|]. split; [apply midnightOf_floor|].
    split; [apply midnightOf_fields|]. split; [apply midnightOf_fields|].
    intros k' shows' Hk' Hs'. apply (Hkey _ _ _ Hk' Hs').
Qed.

Lemma day_bucket_invariant_witness :
  exists shows,
    organizeShowsByDay sample !! mkTime 1714694400 0 = Some shows /\
    scheduleShow (mkSchedule 12 1714730400 "Kaijuu 8-gou" "" 0) ∈ shows.
Proof.
  apply (proj1 (day_bucket_invariant sample)
           (mkSchedule 12 1714730400 "Kaijuu 8-gou" "" 0)).
  unfold sample. apply list_elem_of_further, list_elem_of_here.
Defined.

(** C2.  Title resolution.  For a record of the list, the bucket of its
    day holds a [ShowInfo] with the record's episode, score and airing
    instant whose title is the English title when that is not empty and
    the Romaji title when it is; so English "" with Romaji "Foo" gives
    "Foo", and English "Bar" with Romaji "Baz" gives "Bar". *)
Theorem title_resolution (schedules : list AiringSchedule)
    (schedule : AiringSchedule) :
  schedule ∈ schedules ->
  let primary := English (MediaTitleOf (Media schedule)) in
  let fallback := Romaji (MediaTitleOf (Media schedule)) in
  (exists shows show,
     organizeShowsByDay schedules !! scheduleDayKey schedule = Some shows /\
     show ∈ shows /\
     EpisodeNumber show = Episode schedule /\
     AverageScore show = MediaAverageScore (Media schedule) /\
     AiringTime show = Unix (AiringAt schedule) /\
     (primary <> "" -> Title show = primary) /\
     (primary = "" -> Title show = fallback)) /\
  (forall ep airingAt score,
     Title (scheduleShow (mkSchedule ep airingAt "Foo" "" score)) = "Foo" /\
     Title (scheduleShow (mkSchedule ep airingAt "Baz" "Bar" score)) = "Bar").
Proof.
  intros Hin. cbv zeta. split; [|done].
  exists (map scheduleShow (onDay (scheduleDayKey schedule) schedules)),
    (scheduleShow schedule).
  split; [by apply organize_lookup_elem|].
  split.
  { apply list_elem_of_fmap. exists schedule. split; [done|].
    by apply list_elem_of_filter. }
  do 3 (split; [done|]).
  cbn. unfold scheduleTitle. cbv zeta.
  destruct (String.eqb_spec (English (MediaTitleOf (Media schedule))) "");
    split; congruence.
Qed.

Lemma title_resolution_witness :
  exists shows show,
    organizeShowsByDay sample !! mkTime 1714521600 0 = Some shows /\
    show ∈ shows /\ Title show = "Foo".
Proof.
  destruct (title_resolution sample (mkSchedule 7 1714564800 "Foo" "" 75))
    as [(shows & show & H1 & H2 & _ & _ & _ & _ & H3) _].
  - unfold sample. do 3 apply list_elem_of_further. apply list_elem_of_here.
  - exists shows, show. split; [exact H1|]. split; [exact H2|]. by apply H3.
Defined.

(** ** Keys of the map and the order of [range] *)

Lemma elem_of_keysOf showsByDay k :
  k ∈ keysOf showsByDay <-> is_Some (showsByDay !! k).
Proof.
  unfold keysOf. rewrite list_elem_of_fmap. split.
  - intros ([k' v] & -> & H). apply elem_of_map_to_list in H. by exists v.
  - intros [v H]. exists (k, v). split; [done|]. by apply elem_of_map_to_list.
Qed.

Lemma NoDup_keysOf showsByDay : NoDup (keysOf showsByDay).
Proof. apply NoDup_fst_map_to_list. Qed.

Lemma length_keysOf showsByDay : length (keysOf showsByDay) = size showsByDay.
Proof. unfold keysOf. by rewrite length_fmap, length_map_to_list. Qed.

Lemma elem_of_organize_keys schedules k :
  k ∈ keysOf (organizeShowsByDay schedules) <->
  exists schedule, schedule ∈ schedules /\ scheduleDayKey schedule = k.
Proof.
  rewrite elem_of_keysOf, <- elem_of_dom, organize_dom, elem_of_list_to_set,
    list_elem_of_fmap.
  split; intros (schedule & H1 & H2); exists schedule; done.
Qed.

(** ** Counting *)

Lemma sum_indicator {K} `{EqDecision K} (k0 : K) (ks : list K) :
  NoDup ks -> k0 ∈ ks ->
  sum_list_with (fun k => if decide (k0 = k) then 1%nat else 0%nat) ks = 1%nat.
Proof.
  induction 1 as [|k ks Hnotin Hnd IH]; intros Hin; [by inversion Hin|].
  cbn. destruct (decide (k0 = k)) as [->|Hne].
  - f_equal. clear IH Hin. induction ks as [|k' ks IH]; [done|].
    cbn. apply not_elem_of_cons in Hnotin as [Hne Hnotin].
    apply NoDup_cons in Hnd as [_ Hnd].
    rewrite decide_False by done. by apply IH.
  - apply IH. by apply elem_of_cons in Hin as [?|?].
Qed.

(** Splitting a list by a key loses and duplicates nothing. *)
Lemma length_by_key {A K} `{EqDecision K} (key : A -> K) (l : list A)
    (ks : list K) :
  NoDup ks -> (forall x, x ∈ l -> key x ∈ ks) ->
  sum_list_with (fun k => length (filter (fun x => key x = k) l)) ks = length l.
Proof.
  intros Hnd. induction l as [|x l IH]; intros Hcover.
  - clear. induction ks as [|k ks IHk]; [done|]. exact IHk.
  - transitivity
      (sum_list_with (fun k => if decide (key x = k) then 1%nat else 0%nat) ks
       + sum_list_with (fun k => length (filter (fun x => key x = k) l)) ks)%nat.
    + clear. induction ks as [|k ks IHk]; [done|].
      cbn [sum_list_with]. rewrite IHk, filter_cons.
      destruct (decide (key x = k)); cbn; lia.
    + rewrite sum_indicator, IH; [done| |done|].
      * intros y Hy. apply Hcover. by right.
      * apply Hcover. by left.
Qed.

Lemma sum_list_with_ext {A} (f g : A -> nat) (l : list A) :
  (forall x, x ∈ l -> f x = g x) -> sum_list_with f l = sum_list_with g l.
Proof.
  induction l as [|x l IH]; intros H; [done|].
  cbn. rewrite (H x), IH; [done| |by left]. intros y Hy. apply H. by right.
Qed.

Lemma length_concat_map {A B} (f : A -> list B) (l : list A) :
  length (concat (map f l)) = sum_list_with (fun x => length (f x)) l.
Proof.
  induction l as [|x l IH]; [done|]. cbn. by rewrite length_app, IH.
Qed.

Lemma remove_dups_inj {A B} `{EqDecision A, EqDecision B} (f : A -> B)
    (l : list A) :
  (forall x y, f x = f y -> x = y) ->
  remove_dups (map f l) = map f (remove_dups l).
Proof.
  intros Hinj. induction l as [|x l IH]; [done|].
  cbn [map remove_dups].
  destruct (decide_rel elem_of x l) as [Hin|Hnotin],
    (decide_rel elem_of (f x) (map f l)) as [Hin'|Hnotin'].
  - done.
  - destruct Hnotin'. apply list_elem_of_fmap. by exists x.
  - apply list_elem_of_fmap in Hin' as (y & Hxy & Hy).
    apply Hinj in Hxy as ->. done.
  - cbn [map]. by rewrite IH.
Qed.

Lemma size_list_to_set_dups (l : list Time) :
  size (list_to_set l : gset Time) = length (remove_dups l).
Proof.
  rewrite <- (size_list_to_set (C:=gset Time) (remove_dups l))
    by apply NoDup_remove_dups.
  f_equal. apply set_eq. intros x.
  by rewrite !elem_of_list_to_set, elem_of_remove_dups.
Qed.

Lemma scheduleDayKey_utcDay schedule :
  scheduleDayKey schedule = mkTime (86400 * utcDay schedule) 0.
Proof. unfold scheduleDayKey. by rewrite midnightOf_floor. Qed.

Lemma distinct_days schedules :
  size (organizeShowsByDay schedules) =
  length (remove_dups (map utcDay schedules)).
Proof.
  rewrite <- (size_dom (D:=gset Time)), organize_dom, size_list_to_set_dups.
  replace (map scheduleDayKey schedules)
    with (map (fun d => mkTime (86400 * d) 0) (map utcDay schedules)).
  - rewrite remove_dups_inj, length_map; [done|]. intros x y [= H]. lia.
  - rewrite map_map. apply map_ext. intros. by rewrite scheduleDayKey_utcDay.
Qed.

(** ** The report of an organized list *)

Section Report.

Variable Render : Style -> string -> string.

Implicit Types (schedules : list AiringSchedule) (rangeOrder : list Time).

(** C5.  Order within a day.  When [range] yields the keys of the
    organized map in any order [rangeOrder]: each bucket is the
    [ShowInfo]s of the input records of that day in input order; the
    entries [renderDay] writes for a day are those records' lines in the
    same order; the entries of the whole report are the days' runs, day
    after day; and when all records fall on one day, the report's entries
    are exactly the input records' lines in input order. *)
Theorem within_day_order schedules rangeOrder :
  rangeOrder ≡ₚ keysOf (organizeShowsByDay schedules) ->
  let showsByDay := organizeShowsByDay schedules in
  let recordsOn day :=
    filter (fun schedule => scheduleDayKey schedule = day) schedules in
  (forall day shows, showsByDay !! day = Some shows ->
     shows = map scheduleShow (recordsOn day)) /\
  (forall ndays i day,
     entryTexts (renderDay Render showsByDay ndays i day) =
     map (fun schedule => renderEntry Render (scheduleShow schedule))
         (recordsOn day)) /\
  entryTexts (renderPieces Render rangeOrder showsByDay) =
    concat (map (fun day =>
                   map (fun schedule => renderEntry Render (scheduleShow schedule))
                       (recordsOn day))
                (sortedDays rangeOrder)) /\
  (forall day, schedules <> [] ->
     Forall (fun schedule => scheduleDayKey schedule = day) schedules ->
     entryTexts (renderPieces Render rangeOrder showsByDay) =
     map (fun schedule => renderEntry Render (scheduleShow schedule)) schedules).
Proof.
  intros Hrange. cbv zeta.
  assert (Hentries : forall ro,
    entryTexts (renderPieces Render ro (organizeShowsByDay schedules)) =
    concat (map (fun day =>
                   map (fun schedule => renderEntry Render (scheduleShow schedule))
                       (filter (fun schedule => scheduleDayKey schedule = day)
                               schedules))
                (sortedDays ro))).
  { intros ro. rewrite renderPieces_entries. f_equal. apply map_ext.
    intros day. by rewrite organize_bucket, map_map. }
  split; [|split; [|split]].
  - intros day shows H. by apply organize_lookup_Some in H as [-> _].
  - intros ndays i day.
    by rewrite renderDay_entries, organize_bucket, map_map.
  - apply Hentries.
  - intros day Hne Hall. rewrite Hentries.
    assert (Hsd : sortedDays rangeOrder = [day]).
    { apply Permutation_singleton_r. rewrite sortedDays_perm, Hrange.
      apply NoDup_Permutation; [apply NoDup_keysOf|apply NoDup_singleton|].
      intros k. rewrite elem_of_organize_keys, list_elem_of_singleton.
      rewrite Forall_forall in Hall. split.
      - intros (schedule & Hin & <-). by apply Hall.
      - intros ->. destruct schedules as [|schedule rest]; [done|].
        exists schedule. split; [by left|]. apply Hall. by left. }
    rewrite Hsd. cbn [map concat]. rewrite app_nil_r. f_equal.
    clear -Hall. induction Hall as [|schedule rest Hk Hall IH]; [done|].
    by rewrite filter_cons_True, IH.
Qed.

(** C7.  Counts.  Organizing [schedules] and rendering the result writes
    as many show lines as there are records, and as many day headers as
    there are distinct UTC days ([AiringAt / 86400]) among them. *)
Theorem round_trip_counts schedules rangeOrder :
  rangeOrder ≡ₚ keysOf (organizeShowsByDay schedules) ->
  let pieces := renderPieces Render rangeOrder (organizeShowsByDay schedules) in
  length (entryTexts pieces) = length schedules /\
  length (headerTexts pieces) = length (remove_dups (map utcDay schedules)).
Proof.
  intros Hrange. cbv zeta. split.
  - rewrite renderPieces_entries, length_concat_map.
    erewrite (sum_list_with_ext _ _ (sortedDays rangeOrder)); cycle 1.
    { intros day _. by rewrite length_map, organize_bucket, length_map. }
    apply length_by_key.
    + rewrite sortedDays_perm, Hrange. apply NoDup_keysOf.
    + intros schedule Hin. rewrite sortedDays_perm, Hrange.
      apply elem_of_organize_keys. by exists schedule.
  - rewrite renderPieces_headers, length_map, sortedDays_length, Hrange,
      length_keysOf.
    apply distinct_days.
Qed.

End Report.

(** ** Score tiers *)

Lemma float32_exact n : Z.abs n < 2 ^ 24 -> float32 n = n.
Proof.
  intros H. unfold float32. cbv zeta.
  destruct (Z.ltb_spec (Z.abs n) (2 ^ 24)); [done|lia].
Qed.

Section Scores.

Variable Render : Style -> string -> string.

Lemma statusEmoji_cases score :
  (statusEmoji score = "🌟" <-> 75 < score) /\
  (statusEmoji score = "📡" <-> score = 0) /\
  (statusEmoji score = "✨" <-> ~ 75 < score /\ score <> 0).
Proof.
  unfold statusEmoji.
  destruct (Z.ltb_spec 75 score), (Z.eqb_spec score 0);
    repeat split; intros; try lia; try discriminate; try reflexivity.
  all: destruct H1; lia.
Qed.

Lemma renderEntry_eq (show : ShowInfo) :
  renderEntry Render show =
    Render showEntryStyle
      (statusEmoji (AverageScore show) +:+ " "
       +:+ Render titleStyle (Title show)
       +:+ Render subtleStyle " • "
       +:+ Render episodeStyle ("Ep " +:+ fmtInt (EpisodeNumber show))
       +:+ Render timeStyle (" 🕒 " +:+ Format_3_04_PM (AiringTime show))
       +:+ renderScore Render (AverageScore show)).
Proof. reflexivity. Qed.

Lemma renderScore_rated score :
  0 < score < 2 ^ 24 ->
  renderScore Render score = Render scoreStyle ("★ " +:+ fmtInt score +:+ "/100").
Proof.
  intros H. unfold renderScore, fmtFloat0.
  destruct (Z.ltb_spec 0 score); [|lia]. by rewrite float32_exact by lia.
Qed.

Lemma renderScore_unrated score :
  score <= 0 -> renderScore Render score = Render noScoreStyle "★ No rating".
Proof.
  intros H. unfold renderScore. destruct (Z.ltb_spec 0 score); [lia|done].
Qed.

(** C3.  Score tiers and score suffix, for a score in 0..100.  The entry
    line is the entry style applied to the status marker, a space, the
    title, separator, episode and time, and the score suffix.  The marker
    is the star-struck one exactly when the score is above 75, the
    satellite one exactly when it is 0, the sparkles otherwise (76 and 75
    fall on the two sides).  The suffix is "{score}/100" in the score
    style for a positive score, and the "No rating" label, which has no
    "0/100" in it, for 0. *)
Theorem score_rendering (show : ShowInfo) :
  let score := AverageScore show in
  0 <= score <= 100 ->
  renderEntry Render show =
    Render showEntryStyle
      (statusEmoji score +:+ " "
       +:+ Render titleStyle (Title show)
       +:+ Render subtleStyle " • "
       +:+ Render episodeStyle ("Ep " +:+ fmtInt (EpisodeNumber show))
       +:+ Render timeStyle (" 🕒 " +:+ Format_3_04_PM (AiringTime show))
       +:+ renderScore Render score) /\
  (statusEmoji score = "🌟" <-> 75 < score) /\
  (statusEmoji score = "📡" <-> score = 0) /\
  (statusEmoji score = "✨" <-> ~ 75 < score /\ score <> 0) /\
  (0 < score ->
     renderScore Render score =
     Render scoreStyle ("★ " +:+ fmtInt score +:+ "/100")) /\
  (score = 0 ->
     renderScore Render score = Render noScoreStyle "★ No rating") /\
  hasInfix "0/100" "★ No rating" = false /\
  (statusEmoji 76, statusEmoji 75, statusEmoji 40, statusEmoji 0)
    = ("🌟", "✨", "✨", "📡") /\
  (renderScore plain 40, renderScore plain 0) = ("★ 40/100", "★ No rating").
Proof.
  cbv zeta. intros Hrange.
  split; [apply renderEntry_eq|].
  destruct (statusEmoji_cases (AverageScore show)) as (H1 & H2 & H3).
  do 3 (split; [assumption|]).
  split; [intros; apply renderScore_rated; lia|].
  split; [intros; apply renderScore_unrated; lia|].
  split; [vm_compute; reflexivity|].
  split; vm_compute; reflexivity.
Qed.

(** C10.  Negative scores.  For a score below 0 the line carries the
    default marker (not the one of an unscored show) and the "No rating"
    suffix: the suffix is that of score 0, the marker is not. *)
Theorem negative_score_disagreement (show : ShowInfo) :
  let score := AverageScore show in
  score < 0 ->
  renderEntry Render show =
    Render showEntryStyle
      ("✨" +:+ " "
       +:+ Render titleStyle (Title show)
       +:+ Render subtleStyle " • "
       +:+ Render episodeStyle ("Ep " +:+ fmtInt (EpisodeNumber show))
       +:+ Render timeStyle (" 🕒 " +:+ Format_3_04_PM (AiringTime show))
       +:+ Render noScoreStyle "★ No rating") /\
  statusEmoji score = "✨" /\
  statusEmoji score <> "📡" /\
  renderScore Render score = Render noScoreStyle "★ No rating" /\
  renderScore Render score = renderScore Render 0 /\
  statusEmoji score <> statusEmoji 0.
Proof.
  cbv zeta. intros Hneg.
  destruct (statusEmoji_cases (AverageScore show)) as (_ & H2 & H3).
  assert (He : statusEmoji (AverageScore show) = "✨") by (apply H3; lia).
  assert (Hs : renderScore Render (AverageScore show)
               = Render noScoreStyle "★ No rating")
    by (apply renderScore_unrated; lia).
  split; [by rewrite renderEntry_eq, He, Hs|].
  split; [exact He|].
  split; [rewrite He; discriminate|].
  split; [exact Hs|].
  split; [by rewrite Hs, renderScore_unrated by lia|].
  rewrite He. vm_compute. discriminate.
Qed.

End Scores.

Lemma score_rendering_witness :
  renderScore plain 76 = "★ 76/100".
Proof.
  destruct (score_rendering plain (mkShow "Frieren" 5 76 (Unix 1714737600)))
    as (_ & _ & _ & _ & H & _).
  - cbn [AverageScore mkShow]. lia.
  - apply H. cbn [AverageScore mkShow]. lia.
Defined.

Lemma negative_score_disagreement_witness :
  statusEmoji (-3) = "✨" /\
  renderScore plain (-3) = "★ No rating".
Proof.
  destruct (negative_score_disagreement plain (mkShow "Foo" 1 (-3) (Unix 0)))
    as (_ & H1 & _ & H2 & _).
  - cbn [AverageScore mkShow]. lia.
  - split; [exact H1|exact H2].
Defined.

(** ** Order of the days *)

Section DayOrder.

Variable Render : Style -> string -> string.

(** C4.  Order of the days.  For a non-empty map and any order
    [rangeOrder] in which [range] yields its keys: the headers written
    are those of [sortedDays rangeOrder], one per key, each day strictly
    after all the days that follow it; the output is the same for every
    other enumeration order; and the keys 05-01, 05-03, 05-02 of May 2024
    come out as 05-03, 05-02, 05-01. *)
Theorem days_descending (showsByDay : gmap Time (list ShowInfo))
    (rangeOrder : list Time) :
  showsByDay <> ∅ ->
  rangeOrder ≡ₚ keysOf showsByDay ->
  let days := sortedDays rangeOrder in
  headerTexts (renderPieces Render rangeOrder showsByDay)
    = map (dayHeader Render) days /\
  descending days /\
  days ≡ₚ keysOf showsByDay /\
  days <> [] /\
  (forall otherOrder, otherOrder ≡ₚ keysOf showsByDay ->
     renderPieces Render otherOrder showsByDay
     = renderPieces Render rangeOrder showsByDay) /\
  sortedDays [Date 2024 5 1 0 0 0 0; Date 2024 5 3 0 0 0 0; Date 2024 5 2 0 0 0 0]
    = [Date 2024 5 3 0 0 0 0; Date 2024 5 2 0 0 0 0; Date 2024 5 1 0 0 0 0].
Proof.
  intros Hne Hrange. cbv zeta.
  split; [apply renderPieces_headers|].
  split; [apply sortedDays_descending; rewrite Hrange; apply NoDup_keysOf|].
  split; [by rewrite sortedDays_perm|].
  split.
  { intros Hnil. apply Hne, map_size_empty_iff.
    by rewrite <- length_keysOf, <- Hrange, <- sortedDays_length, Hnil. }
  split; [|vm_compute; reflexivity].
  intros otherOrder Hother. unfold renderPieces.
  rewrite (sortedDays_order_irrelevant otherOrder rangeOrder); [done|].
  by rewrite Hother, Hrange.
Qed.

End DayOrder.

(** ** The pipeline: failures, the empty answer, the query *)

Lemma organize_empty_iff schedules :
  organizeShowsByDay schedules = ∅ <-> schedules = [].
Proof.
  split; [|by intros ->].
  destruct schedules as [|schedule rest]; [done|]. intros H.
  pose proof (organize_lookup_elem (schedule :: rest) schedule
                ltac:(by left)) as Hl.
  rewrite H, lookup_empty in Hl. discriminate.
Qed.

Section Pipeline.

Variable Render : Style -> string -> string.

Lemma main_decoded w requestBody response :
  Decoded w requestBody response ->
  main Render w =
  EvPost endpoint contentType requestBody ::
  (let showsByDay := organizeShowsByDay (AiringSchedules response) in
   if (size showsByDay =? 0)%nat then [EvPrintln (Render appStyle noEpisodes)]
   else renderOutput Render (mapRange w showsByDay) showsByDay)
  ++ [EvClose].
Proof.
  intros (resp & body & H1 & H2 & H3 & H4). unfold main. cbv zeta.
  unfold endpoint, contentType in *. by rewrite H1, H2, H3, H4.
Qed.

(** C6.  Empty input.  Organizing the empty list gives the empty map.  In
    a run that reaches the decoded response, the map is empty exactly
    when the response has no record; then the run posts once, prints the
    fixed message in the application style, closes the body, and prints
    nothing else; otherwise what it prints is [renderOutput]'s. *)
Theorem empty_input :
  organizeShowsByDay [] = ∅ /\
  forall w requestBody response,
    Decoded w requestBody response ->
    let showsByDay := organizeShowsByDay (AiringSchedules response) in
    (showsByDay = ∅ <-> AiringSchedules response = []) /\
    (showsByDay = ∅ ->
       main Render w =
         [EvPost endpoint contentType requestBody;
          EvPrintln (Render appStyle "✨ No new episodes aired in the past week ✨");
          EvClose]) /\
    (showsByDay <> ∅ ->
       main Render w =
         EvPost endpoint contentType requestBody ::
         renderOutput Render (mapRange w showsByDay) showsByDay ++ [EvClose]).
Proof.
  split; [reflexivity|]. intros w requestBody response Hd. cbv zeta.
  split; [apply organize_empty_iff|].
  rewrite (main_decoded _ _ _ Hd). cbv zeta. split.
  - intros ->. reflexivity.
  - intros Hne.
    destruct (Nat.eqb_spec (size (organizeShowsByDay (AiringSchedules response))) 0)
      as [Hz|_]; [|done].
    by apply map_size_empty_iff in Hz.
Qed.

(** C9.  Failures end the run.  When serialization, transport, reading
    the body or decoding fails, the run prints exactly one line, the
    error style applied to "<label>: <cause>", sends at most one request,
    and prints nothing before or after that line. *)
Theorem errors_are_terminal (w : World) (label cause : string) :
  Failure w label cause ->
  stdout (main Render w) = [Render errorStyle (label +:+ ": " +:+ cause)] /\
  (posts (main Render w) <= 1)%nat /\
  exists before after,
    main Render w = before ++ printError Render label cause ++ after /\
    stdout before = [] /\ stdout after = [].
Proof.
  intros Hf. unfold main. cbv zeta.
  destruct Hf as [err H1|requestBody err H1 H2|requestBody resp err H1 H2 H3
                 |requestBody resp body err H1 H2 H3 H4];
    unfold endpoint, contentType in *; rewrite ?H1, ?H2, ?H3, ?H4.
  - split; [reflexivity|]. split; [cbn; lia|]. by exists [], [].
  - split; [reflexivity|]. split; [cbn; lia|].
    by exists [EvPost "https://graphql.anilist.co" "application/json" requestBody], [].
  - split; [reflexivity|]. split; [cbn; lia|].
    by exists [EvPost "https://graphql.anilist.co" "application/json" requestBody],
      [EvClose].
  - split; [reflexivity|]. split; [cbn; lia|].
    by exists [EvPost "https://graphql.anilist.co" "application/json" requestBody],
      [EvClose].
Qed.

End Pipeline.

(** C8.  The query.  For an instant [now] (nanosecond within a second),
    [AddDate(0, 0, -7)] is 7 * 86400 seconds earlier; the query is the
    fixed text asking for a page of 100 airing schedules with
    [airingAt_greater] the Unix second of seven days ago and
    [airingAt_lesser] that of [now], sorted [TIME_DESC], selecting
    episode, airingAt, both titles and the average score; it is the query
    a run serializes, and a run posts it once. *)
Theorem query_window (now : Time) :
  0 <= Nanosecond now < 1000000000 ->
  let sevenDaysAgo := AddDate now 0 0 (-7) in
  toUnix sevenDaysAgo = toUnix now - 7 * 86400 /\
  buildQuery now =
    queryHead +:+ fmtInt (toUnix now - 7 * 86400) +:+ ", airingAt_lesser: "
    +:+ fmtInt (toUnix now) +:+ queryTail /\
  (forall w Render requestBody response,
     time_Now w = now -> Decoded w requestBody response ->
     json_Marshal w {| Query := buildQuery now |} = inl requestBody /\
     posts (main Render w) = 1%nat) /\
  buildQuery (mkTime 1714737600 123456789) =
"
	{
		Page(perPage: 100) {
			airingSchedules(airingAt_greater: 1714132800, airingAt_lesser: 1714737600, sort: TIME_DESC) {
				episode
				airingAt
				media {
					title {
						romaji
						english
					}
					averageScore
				}
			}
		}
	}
	".
Proof.
  intros Hns. cbv zeta.
  assert (H7 : toUnix (AddDate now 0 0 (-7)) = toUnix now - 7 * 86400).
  { rewrite AddDate_days by exact Hns. unfold toUnix, secondsPerDay. cbn. lia. }
  split; [exact H7|].
  split; [unfold buildQuery; cbv zeta; by rewrite H7|].
  split; [|vm_compute; reflexivity].
  intros w Render requestBody response <- Hd.
  rewrite (main_decoded _ _ _ _ Hd).
  destruct Hd as (resp & body & H1 & _). split; [exact H1|].
  cbv zeta. unfold posts. cbn [List.filter isPost length].
  rewrite List.filter_app, length_app. cbn.
  destruct (_ =? _)%nat; cbn; lia.
Qed.

(** ** The theorems on concrete runs *)

Lemma sample_keys : [may01; may03; may02] ≡ₚ keysOf (organizeShowsByDay sample).
Proof. apply (bool_decide_unpack _). vm_compute. reflexivity. Qed.

Lemma sameDay_keys : [may03] ≡ₚ keysOf (organizeShowsByDay sameDay).
Proof. apply (bool_decide_unpack _). vm_compute. reflexivity. Qed.

Lemma days_descending_witness :
  headerTexts (renderPieces plain [may01; may03; may02] (organizeShowsByDay sample))
  = map (dayHeader plain) (sortedDays [may01; may03; may02]) /\
  descending (sortedDays [may01; may03; may02]).
Proof.
  destruct (days_descending plain (organizeShowsByDay sample) [may01; may03; may02])
    as (H1 & H2 & _).
  - intros H%organize_empty_iff. discriminate.
  - apply sample_keys.
  - split; [exact H1|exact H2].
Defined.

Lemma within_day_order_witness :
  entryTexts (renderPieces plain [may03] (organizeShowsByDay sameDay))
  = map (fun schedule => renderEntry plain (scheduleShow schedule)) sameDay.
Proof.
  destruct (within_day_order plain sameDay [may03] sameDay_keys) as (_ & _ & _ & H).
  apply (H may03); [discriminate|].
  repeat constructor; vm_compute; reflexivity.
Defined.

Lemma round_trip_counts_witness :
  length (entryTexts (renderPieces plain [may01; may03; may02]
                        (organizeShowsByDay sample))) = 4%nat /\
  length (headerTexts (renderPieces plain [may01; may03; may02]
                        (organizeShowsByDay sample))) = 3%nat.
Proof.
  destruct (round_trip_counts plain sample [may01; may03; may02] sample_keys)
    as [H1 H2].
  split; [exact H1|]. rewrite H2. vm_compute. reflexivity.
Defined.

Lemma empty_input_witness :
  main plain (cannedWorld (Unix 1714737600) (inl "request")
                (inl {| Body := inl "reply" |})
                (inl {| AiringSchedules := [] |}))
  = [EvPost endpoint contentType "request";
     EvPrintln "✨ No new episodes aired in the past week ✨";
     EvClose].
Proof.
  apply (proj2 (empty_input plain) _ "request" {| AiringSchedules := [] |}).
  - exists {| Body := inl "reply" |}, "reply". repeat split; reflexivity.
  - reflexivity.
Defined.

Lemma errors_are_terminal_witness :
  stdout (main plain (cannedWorld (Unix 1714737600) (inl "request")
                        (inr "connection refused")
                        (inl {| AiringSchedules := sample |})))
  = ["Error making request: connection refused"].
Proof.
  apply (errors_are_terminal plain _ "Error making request" "connection refused").
  apply (TransportFailure _ "request"); reflexivity.
Defined.

Lemma query_window_witness :
  toUnix (AddDate (mkTime 1714737600 123456789) 0 0 (-7)) = 1714132800.
Proof.
  destruct (query_window (mkTime 1714737600 123456789)) as [H _].
  - cbn. lia.
  - rewrite H. reflexivity.
Defined.

(** * Further properties of the code *)

(** ** More on the organizer *)

(** Grouping by a key and concatenating the groups gives every element
    once. *)
Lemma regroup_perm {A K} `{EqDecision K} (key : A -> K) (ks : list K) :
  NoDup ks -> forall l : list A,
  (forall x, x ∈ l -> key x ∈ ks) ->
  concat (map (fun k => filter (fun x => key x = k) l) ks) ≡ₚ l.
Proof.
  induction 1 as [|k ks Hnotin Hnd IH]; intros l Hcover.
  - destruct l as [|x l]; [done|]. specialize (Hcover x ltac:(by left)).
    by apply elem_of_nil in Hcover.
  - cbn [map concat].
    etrans; [|apply (filter_app_complement (fun x => key x = k) l)].
    apply Permutation_app_head.
    etrans; [|apply (IH (filter (fun x => ~ key x = k) l))].
    + apply reflexive_eq. f_equal. apply map_ext_in. intros k' Hk'.
      apply list_elem_of_In in Hk'.
      rewrite list_filter_filter. apply list_filter_iff. intros x.
      split; [|tauto]. intros ->. split; [done|]. by intros ->.
    + intros x [Hx Hin]%list_elem_of_filter.
      by apply Hcover, elem_of_cons in Hin as [?|?].
Qed.

Section OrganizerMore.

Implicit Types (schedules : list AiringSchedule) (k : Time).

Lemma onDay_nil_iff k schedules :
  onDay k schedules = [] <->
  forall schedule, schedule ∈ schedules -> scheduleDayKey schedule <> k.
Proof.
  unfold onDay. split.
  - intros H schedule Hin Hk.
    by apply (filter_nil_not_elem_of _ _ schedule H Hk).
  - intros H. induction schedules as [|schedule rest IH]; [done|].
    rewrite filter_cons_False.
    + apply IH. intros s Hs. apply H. by right.
    + apply H. by left.
Qed.

Lemma organize_lookup schedules k :
  organizeShowsByDay schedules !! k =
  match onDay k schedules with
  | [] => None
  | records => Some (map scheduleShow records)
  end.
Proof.
  destruct (organizeShowsByDay schedules !! k) as [shows|] eqn:E.
  - apply organize_lookup_Some in E as [-> Hne].
    destruct (onDay k schedules); [done|reflexivity].
  - destruct (onDay k schedules) as [|schedule rest] eqn:Eo; [done|].
    assert (Hin : schedule ∈ onDay k schedules) by (rewrite Eo; by left).
    apply list_elem_of_filter in Hin as [<- Hin].
    by rewrite (organize_lookup_elem _ _ Hin) in E.
Qed.

(** X1.  Missing days and empty buckets.  A day has no key in the map
    exactly when no record falls on it; a key that is there has at least
    one show, from a record of that day; the map is empty only for the
    empty list, and never has more keys than there are records. *)
Theorem buckets_never_empty schedules k :
  (organizeShowsByDay schedules !! k = None <->
   forall schedule, schedule ∈ schedules -> scheduleDayKey schedule <> k) /\
  (forall shows, organizeShowsByDay schedules !! k = Some shows ->
     shows <> [] /\
     exists schedule, schedule ∈ schedules /\ scheduleDayKey schedule = k) /\
  (size (organizeShowsByDay schedules) = 0%nat <-> schedules = []) /\
  (size (organizeShowsByDay schedules) <= length schedules)%nat.
Proof.
  split; [|split; [|split]].
  - rewrite organize_lookup, <- onDay_nil_iff.
    destruct (onDay k schedules); [done|]. split; discriminate.
  - intros shows H. split; [by apply organize_lookup_Some in H as [_ ?]|].
    apply elem_of_organize_keys, elem_of_keysOf. by exists shows.
  - rewrite map_size_empty_iff. apply organize_empty_iff.
  - rewrite distinct_days, <- (length_map utcDay schedules).
    generalize (map utcDay schedules). intros l.
    induction l as [|x l IH]; [done|].
    cbn [remove_dups length]. destruct (decide_rel elem_of x l); cbn; lia.
Qed.

(** X2.  Nothing is lost or duplicated: the buckets, taken over the keys
    of the map, hold the [ShowInfo]s of the input records, each once. *)
Theorem nothing_lost_or_duplicated schedules :
  concat (map (bucket (organizeShowsByDay schedules))
              (keysOf (organizeShowsByDay schedules)))
  ≡ₚ map scheduleShow schedules.
Proof.
  set (keys := keysOf (organizeShowsByDay schedules)).
  replace (map (bucket (organizeShowsByDay schedules)) keys)
    with (map (map scheduleShow) (map (fun k => onDay k schedules) keys)).
  - rewrite <- concat_map. apply Permutation_map.
    apply (regroup_perm scheduleDayKey keys); [apply NoDup_keysOf|].
    intros schedule Hin. apply elem_of_organize_keys. by exists schedule.
  - rewrite map_map. apply map_ext. intros k. by rewrite organize_bucket.
Qed.

(** X3.  Organizing two lists one after the other: each bucket of the
    joined list is the bucket of the first followed by the bucket of the
    second, the days are the union of the two sets of days, and there are
    no more of them than in the two maps together. *)
Theorem organize_app schedules1 schedules2 k :
  (bucket (organizeShowsByDay (schedules1 ++ schedules2)) k =
     bucket (organizeShowsByDay schedules1) k
     ++ bucket (organizeShowsByDay schedules2) k) /\
  (dom (organizeShowsByDay (schedules1 ++ schedules2)) =
     dom (organizeShowsByDay schedules1) ∪ dom (organizeShowsByDay schedules2)) /\
  (size (organizeShowsByDay (schedules1 ++ schedules2))
   <= size (organizeShowsByDay schedules1)
      + size (organizeShowsByDay schedules2))%nat.
Proof.
  assert (Hdom : dom (organizeShowsByDay (schedules1 ++ schedules2)) =
    dom (organizeShowsByDay schedules1) ∪ dom (organizeShowsByDay schedules2)).
  { rewrite !organize_dom, map_app. apply list_to_set_app_L. }
  split; [|split; [exact Hdom|]].
  - rewrite !organize_bucket. unfold onDay. by rewrite filter_app, map_app.
  - rewrite <- !(size_dom (D:=gset Time)), Hdom, size_union_alt.
    apply Nat.add_le_mono_l, subseteq_size, subseteq_difference_l. done.
Qed.

(** X11.  Two lists are organized into the same map exactly when, day by
    day, they give the same sequence of [ShowInfo]s; how the records of
    different days are interleaved does not matter. *)
Theorem organize_by_day_subsequences schedules1 schedules2 :
  (forall k, map scheduleShow (onDay k schedules1)
             = map scheduleShow (onDay k schedules2)) <->
  organizeShowsByDay schedules1 = organizeShowsByDay schedules2.
Proof.
  split.
  - intros H. apply map_eq. intros k. rewrite !organize_lookup.
    specialize (H k).
    destruct (onDay k schedules1), (onDay k schedules2); try done.
    by rewrite H.
  - intros H k. by rewrite <- !organize_bucket, H.
Qed.

End OrganizerMore.

Lemma NoDup_in_range_length (l : list Z) (lo n : Z) :
  0 <= n -> NoDup l -> (forall x, x ∈ l -> lo <= x < lo + n) ->
  (length l <= Z.to_nat n)%nat.
Proof.
  intros Hn Hnd Hr. rewrite <- (length_seqZ lo n).
  apply submseteq_length, NoDup_submseteq; [done|].
  intros x Hx. apply elem_of_seqZ. by apply Hr.
Qed.

(** X4.  When every airing time lies strictly inside the window the query
    asks for, between seven days before [now] and [now], the map has at
    most 8 days and the report at most 8 day headers. *)
Theorem at_most_eight_days (now : Time) (schedules : list AiringSchedule) :
  (forall schedule, schedule ∈ schedules ->
     toUnix now - 7 * 86400 < AiringAt schedule < toUnix now) ->
  (size (organizeShowsByDay schedules) <= 8)%nat /\
  forall Render rangeOrder,
    rangeOrder ≡ₚ keysOf (organizeShowsByDay schedules) ->
    (length (headerTexts
       (renderPieces Render rangeOrder (organizeShowsByDay schedules))) <= 8)%nat.
Proof.
  intros Hwin.
  assert (H8 : (size (organizeShowsByDay schedules) <= 8)%nat).
  { rewrite distinct_days.
    apply (NoDup_in_range_length _ ((toUnix now - 7 * 86400) / 86400) 8);
      [lia|apply NoDup_remove_dups|].
    intros d Hd. apply elem_of_remove_dups, list_elem_of_fmap in Hd
      as (schedule & -> & Hin).
    specialize (Hwin _ Hin). unfold utcDay.
    replace (toUnix now - 7 * 86400) with (toUnix now + (-7) * 86400) in * by ring.
    rewrite Z.div_add in * by lia.
    pose proof (Z.div_le_mono (toUnix now + -7 * 86400) (AiringAt schedule) 86400
                  ltac:(lia) ltac:(lia)) as H1.
    rewrite Z.div_add in H1 by lia.
    pose proof (Z.div_le_mono (AiringAt schedule) (toUnix now) 86400
                  ltac:(lia) ltac:(lia)) as H2.
    lia. }
  split; [exact H8|]. intros Render rangeOrder Hrange.
  by rewrite renderPieces_headers, length_map, sortedDays_length, Hrange,
    length_keysOf.
Qed.

(** ** Input that is latest first *)

Lemma dayKey_monotone a b :
  AiringAt b <= AiringAt a -> After (scheduleDayKey b) (scheduleDayKey a) = false.
Proof.
  intros H. rewrite !scheduleDayKey_utcDay. unfold After, utcDay. cbn [unixSec nanos].
  pose proof (Z.div_le_mono _ _ 86400 ltac:(lia) H).
  apply orb_false_iff. split; [apply Z.ltb_ge; lia|].
  apply andb_false_iff. right. apply Z.ltb_ge. lia.
Qed.

(** With the days latest first and the records latest first, the records
    of the first day are a prefix of the list. *)
Lemma first_day_prefix d ds (l : list AiringSchedule) :
  Forall (fun d' => After d d' = true) ds ->
  StronglySorted (fun a b => AiringAt b <= AiringAt a) l ->
  (forall x, x ∈ l -> scheduleDayKey x ∈ d :: ds) ->
  exists l1 l2, l = l1 ++ l2 /\
    Forall (fun x => scheduleDayKey x = d) l1 /\
    Forall (fun x => scheduleDayKey x ∈ ds) l2.
Proof.
  intros Hd Hs. induction Hs as [|x l Hs IH Hx]; intros Hcover.
  - by exists [], [].
  - destruct (decide (scheduleDayKey x = d)) as [Hxd|Hxd].
    + destruct IH as (l1 & l2 & -> & H1 & H2).
      { intros y Hy. apply Hcover. by right. }
      exists (x :: l1), l2. split; [done|]. split; [by constructor|done].
    + exists [], (x :: l). split; [done|]. split; [constructor|].
      assert (Hxin : scheduleDayKey x ∈ ds).
      { specialize (Hcover x ltac:(by left)).
        by apply elem_of_cons in Hcover as [?|?]. }
      constructor; [exact Hxin|].
      apply Forall_forall. intros y Hy.
      specialize (Hcover y ltac:(by right)).
      apply elem_of_cons in Hcover as [Hyd|?]; [|done].
      pose proof (dayKey_monotone x y (proj1 (Forall_forall _ _) Hx y Hy)) as Hm.
      rewrite Hyd, (proj1 (Forall_forall _ _) Hd _ Hxin) in Hm. discriminate.
Qed.

Lemma regroup_latest_first days : forall l : list AiringSchedule,
  descending days ->
  StronglySorted (fun a b => AiringAt b <= AiringAt a) l ->
  (forall x, x ∈ l -> scheduleDayKey x ∈ days) ->
  concat (map (fun d => onDay d l) days) = l.
Proof.
  induction days as [|d ds IH]; intros l Hdays Hl Hcover.
  - destruct l as [|x l]; [done|].
    specialize (Hcover x ltac:(by left)). by apply elem_of_nil in Hcover.
  - apply StronglySorted_inv in Hdays as [Hds Hd].
    destruct (first_day_prefix d ds l Hd Hl Hcover) as (l1 & l2 & -> & H1 & H2).
    cbn [map concat]. unfold onDay at 1. rewrite filter_app.
    assert (E1 : filter (fun s => scheduleDayKey s = d) l1 = l1).
    { clear -H1. induction H1 as [|x l1 Hx H1 IH1]; [done|].
      by rewrite filter_cons_True, IH1. }
    assert (E2 : filter (fun s => scheduleDayKey s = d) l2 = []).
    { clear -H2 Hd. induction H2 as [|x l2 Hx H2 IH2]; [done|].
      rewrite filter_cons_False; [done|]. intros Hxd. rewrite Hxd in Hx.
      pose proof (proj1 (Forall_forall _ _) Hd _ Hx) as Hdd.
      pose proof (After_asym _ _ Hdd). congruence. }
    rewrite E1, E2, app_nil_r. f_equal.
    etrans; [|apply (IH l2); [done| |]].
    + f_equal. apply map_ext_in. intros d' Hd'. apply list_elem_of_In in Hd'.
      unfold onDay. rewrite filter_app.
      replace (filter (fun s => scheduleDayKey s = d') l1) with (@nil AiringSchedule);
        [done|].
      clear -H1 Hd Hd'. induction H1 as [|x l1 Hx H1 IH1]; [done|].
      rewrite filter_cons_False; [done|]. intros Hxd. rewrite Hx in Hxd. subst d'.
      pose proof (proj1 (Forall_forall _ _) Hd _ Hd') as Hdd.
      pose proof (After_asym _ _ Hdd). congruence.
    + by apply StronglySorted_app_1_r in Hl.
    + intros x Hx. rewrite Forall_forall in H2. by apply H2.
Qed.

Section LatestFirst.

Variable Render : Style -> string -> string.

(** X5.  When the records arrive latest first, as the query asks with
    [TIME_DESC], the show lines of the whole report are the records'
    lines in the order of arrival: grouping by day and sorting the days
    does not move any show. *)
Theorem report_keeps_input_order (schedules : list AiringSchedule)
    (rangeOrder : list Time) :
  latestFirst schedules ->
  rangeOrder ≡ₚ keysOf (organizeShowsByDay schedules) ->
  entryTexts (renderPieces Render rangeOrder (organizeShowsByDay schedules)) =
  map (fun schedule => renderEntry Render (scheduleShow schedule)) schedules.
Proof.
  intros Hl Hrange. rewrite renderPieces_entries.
  replace (map (fun day => map (renderEntry Render)
                             (bucket (organizeShowsByDay schedules) day))
               (sortedDays rangeOrder))
    with (map (map (fun schedule => renderEntry Render (scheduleShow schedule)))
              (map (fun d => onDay d schedules) (sortedDays rangeOrder))).
  - rewrite <- concat_map. f_equal. apply regroup_latest_first.
    + apply sortedDays_descending. rewrite Hrange. apply NoDup_keysOf.
    + apply Sorted_StronglySorted; [|exact Hl]. intros a b c ? ?. lia.
    + intros x Hx. rewrite sortedDays_perm, Hrange.
      apply elem_of_organize_keys. by exists x.
  - rewrite map_map. apply map_ext. intros day.
    by rewrite organize_bucket, map_map.
Qed.

End LatestFirst.

(** ** Separators between the days *)

Section Gaps.

Variable Render : Style -> string -> string.

Lemma countPieces_app kind l1 l2 :
  countPieces kind (l1 ++ l2) = (countPieces kind l1 + countPieces kind l2)%nat.
Proof. unfold countPieces. by rewrite List.filter_app, length_app. Qed.

Lemma countPieces_entries kind shows :
  kind (Entry "") = false ->
  (forall text text', kind (Entry text) = kind (Entry text')) ->
  countPieces kind (map (fun show => Entry (renderEntry Render show)) shows) = 0%nat.
Proof.
  intros H0 Hk. induction shows as [|show shows IH]; [done|].
  unfold countPieces in *. cbn [map List.filter].
  by rewrite (Hk _ ""), H0.
Qed.

Lemma renderDay_gaps showsByDay ndays i day :
  countPieces isGap (renderDay Render showsByDay ndays i day) =
  if Z.of_nat i <? Z.of_nat ndays - 1 then 1%nat else 0%nat.
Proof.
  unfold renderDay. cbv zeta. rewrite !countPieces_app, countPieces_entries by done.
  by destruct (_ <? _).
Qed.

Lemma renderDay_dividers showsByDay ndays i day :
  countPieces isDivider (renderDay Render showsByDay ndays i day) = 1%nat.
Proof.
  unfold renderDay. cbv zeta. rewrite !countPieces_app, countPieces_entries by done.
  by destruct (_ <? _).
Qed.

Lemma renderDay_last showsByDay ndays i day :
  ~ (Z.of_nat i < Z.of_nat ndays - 1) ->
  exists p, last (renderDay Render showsByDay ndays i day) = Some p /\ p <> Gap.
Proof.
  intros Hi. unfold renderDay. cbv zeta.
  destruct (Z.ltb_spec (Z.of_nat i) (Z.of_nat ndays - 1)); [lia|].
  rewrite app_nil_r.
  induction (bucket showsByDay day) as [|show shows IH] using rev_ind.
  - eexists. split; [reflexivity|discriminate].
  - rewrite map_app, app_assoc. cbn [map]. rewrite last_snoc.
    eexists. split; [reflexivity|discriminate].
Qed.

Lemma renderDays_layout showsByDay ndays days : forall (g : nat -> nat) (off : nat),
  (forall i, g i = off + i)%nat -> (off + length days = ndays)%nat ->
  let pieces :=
    concat (imap (fun i => renderDay Render showsByDay ndays (g i)) days) in
  countPieces isGap pieces = pred (length days) /\
  countPieces isDivider pieces = length days /\
  (days <> [] -> exists p, last pieces = Some p /\ p <> Gap).
Proof.
  induction days as [|day days IH]; intros g off Hg Hlen; cbv zeta.
  - done.
  - cbn [imap concat length]. unfold compose. cbn [length] in Hlen.
    rewrite !countPieces_app, renderDay_gaps, renderDay_dividers.
    destruct (IH (fun i => g (S i)) (S off)) as (IH1 & IH2 & IH3).
    { intros i. rewrite Hg. lia. }
    { lia. }
    cbv zeta in IH1, IH2, IH3. rewrite IH1, IH2, (Hg 0%nat), Nat.add_0_r.
    split; [|split; [done|]].
    + destruct days as [|day' days]; cbn [length pred] in *.
      * destruct (Z.ltb_spec (Z.of_nat off) (Z.of_nat ndays - 1)); [lia|done].
      * destruct (Z.ltb_spec (Z.of_nat off) (Z.of_nat ndays - 1)); [done|lia].
    + intros _. rewrite last_app.
      destruct days as [|day' days].
      * cbn [imap concat last]. apply renderDay_last. cbn [length] in Hlen. lia.
      * destruct IH3 as (p & -> & Hp); [done|]. by exists p.
Qed.

(** X6.  Separators.  For a report of one day or more there is one blank
    line fewer than there are days, one divider and one header per day,
    the last thing written is not a blank line, and the first is the
    header of the latest day. *)
Theorem gaps_only_between_days (rangeOrder : list Time)
    (showsByDay : gmap Time (list ShowInfo)) :
  rangeOrder <> [] ->
  let pieces := renderPieces Render rangeOrder showsByDay in
  (countPieces isGap pieces = length rangeOrder - 1)%nat /\
  countPieces isDivider pieces = length rangeOrder /\
  length (headerTexts pieces) = length rangeOrder /\
  (exists p, last pieces = Some p /\ p <> Gap) /\
  (exists day, head (sortedDays rangeOrder) = Some day /\
     head pieces = Some (Header (dayHeader Render day))).
Proof.
  intros Hne. cbv zeta.
  assert (Hsd : sortedDays rangeOrder <> []).
  { intros H. apply Hne, length_zero_iff_nil.
    by rewrite <- sortedDays_length, H. }
  destruct (renderDays_layout showsByDay (length (sortedDays rangeOrder))
              (sortedDays rangeOrder) (fun i => i) 0%nat) as (H1 & H2 & H3);
    [done|done|].
  cbv zeta in H1, H2, H3.
  assert (E : renderPieces Render rangeOrder showsByDay =
    concat (imap (fun i => renderDay Render showsByDay
                              (length (sortedDays rangeOrder)) i)
                 (sortedDays rangeOrder))) by reflexivity.
  split; [rewrite E, H1, sortedDays_length; lia|].
  split; [by rewrite E, H2, sortedDays_length|].
  split; [by rewrite renderPieces_headers, length_map, sortedDays_length|].
  split; [rewrite E; by apply H3|].
  unfold renderPieces. cbv zeta.
  destruct (sortedDays rangeOrder) as [|day days]; [done|].
  exists day. split; reflexivity.
Qed.

End Gaps.

(** ** Digits *)

Lemma parseInt_fmtInt n : parseInt (fmtInt n) = Some n.
Proof.
  unfold parseInt, fmtInt. rewrite NilZero.isi.
  - cbn. f_equal. apply DecimalZ.of_to.
  - intros H. pose proof (DecimalZ.of_to n) as E. rewrite H in E.
    cbn in E. subst n. discriminate.
  - intros H. pose proof (DecimalZ.of_to n) as E. rewrite H in E.
    cbn in E. subst n. discriminate.
Qed.

Lemma fmtInt_inj m n : fmtInt m = fmtInt n -> m = n.
Proof.
  intros H. apply (f_equal parseInt) in H.
  rewrite !parseInt_fmtInt in H. by injection H.
Qed.

Lemma float32_even n : 2 ^ 24 <= n -> exists k, float32 n = 2 * k.
Proof.
  intros Hn. unfold float32. cbv zeta.
  rewrite (Z.abs_eq n) by lia.
  destruct (Z.ltb_spec n (2 ^ 24)); [lia|].
  assert (He : 1 <= Z.log2 n - 23).
  { pose proof (Z.log2_le_mono _ _ Hn) as Hl.
    rewrite Z.log2_pow2 in Hl by lia. lia. }
  set (e := Z.log2 n - 23) in *.
  match goal with
  | |- exists k, _ * Z.shiftl ?q0 _ = _ => generalize q0; intros q
  end.
  rewrite Z.sgn_pos, Z.mul_1_l, Z.shiftl_mul_pow2 by lia.
  exists (q * 2 ^ (e - 1)).
  replace e with (Z.succ (e - 1)) at 1 by lia.
  rewrite Z.pow_succ_r by lia. ring.
Qed.

Section ScoresBeyond.

Variable Render : Style -> string -> string.

(** X7.  Scores outside 0..100 are printed as they are: any positive
    score below 2^24 is shown as "{score}/100", and above 100 with the
    marker of a strong show.  An odd score above 2^24 is not shown as
    itself: it passes through [float32], which keeps 24 bits. *)
Theorem scores_are_not_clamped (score : Z) :
  (0 < score < 2 ^ 24 ->
     renderScore Render score
     = Render scoreStyle ("★ " +:+ fmtInt score +:+ "/100")) /\
  (100 < score -> statusEmoji score = "🌟") /\
  (2 ^ 24 < score -> Z.odd score = true ->
     exists shown,
       renderScore Render score
       = Render scoreStyle ("★ " +:+ fmtInt shown +:+ "/100") /\
       fmtInt shown <> fmtInt score).
Proof.
  split; [apply renderScore_rated|]. split.
  - intros H. apply statusEmoji_cases. lia.
  - intros Hbig Hodd. exists (float32 score). split.
    + unfold renderScore, fmtFloat0.
      destruct (Z.ltb_spec 0 score); [done|lia].
    + intros E%fmtInt_inj.
      destruct (float32_even score ltac:(lia)) as [k Hk].
      apply Z.odd_spec in Hodd as [m Hm]. lia.
Qed.

End ScoresBeyond.

(** ** Every run *)

Section Runs.

Variable Render : Style -> string -> string.

Lemma main_cases w :
  (exists err, main Render w = printError Render "Error creating request" err /\
     json_Marshal w {| Query := buildQuery (time_Now w) |} = inr err) \/
  (exists requestBody err,
     main Render w = EvPost endpoint contentType requestBody ::
                     printError Render "Error making request" err /\
     json_Marshal w {| Query := buildQuery (time_Now w) |} = inl requestBody /\
     http_Post w endpoint contentType requestBody = inr err) \/
  (exists requestBody resp text,
     main Render w = [EvPost endpoint contentType requestBody;
                      EvPrintln text; EvClose] /\
     json_Marshal w {| Query := buildQuery (time_Now w) |} = inl requestBody /\
     http_Post w endpoint contentType requestBody = inl resp).
Proof.
  unfold main, endpoint, contentType. cbv zeta.
  destruct (json_Marshal w _) as [requestBody|err];
    [|left; exists err; split; reflexivity].
  right.
  destruct (http_Post w _ _ requestBody) as [resp|err] eqn:Hpost.
  - right. exists requestBody, resp.
    destruct (Body resp) as [body|err];
      [|eexists; repeat split; try reflexivity; try exact Hpost].
    destruct (json_Unmarshal w body) as [response|err];
      [|eexists; repeat split; try reflexivity; try exact Hpost].
    destruct (_ =? _)%nat; eexists; repeat split; try reflexivity; try exact Hpost.
  - left. exists requestBody, err. repeat split; try reflexivity; try exact Hpost.
Qed.

(** X8.  Every run prints exactly one line, sends at most one request,
    and closes a body at most as often as it posts. *)
Theorem one_line_per_run (w : World) :
  length (stdout (main Render w)) = 1%nat /\
  (posts (main Render w) <= 1)%nat /\
  (closes (main Render w) <= posts (main Render w))%nat.
Proof.
  destruct (main_cases w) as [(err & -> & _)|[(rb & err & -> & _)
                             |(rb & resp & text & -> & _)]];
    cbn; lia.
Qed.

(** X9.  The response body is closed exactly in the runs whose request
    was serialized and whose POST returned a response; in those runs the
    trace is the POST, one printed line, then the close. *)
Theorem body_closed_after_successful_post (w : World) :
  (closes (main Render w) = 1%nat <->
   exists requestBody resp,
     json_Marshal w {| Query := buildQuery (time_Now w) |} = inl requestBody /\
     http_Post w endpoint contentType requestBody = inl resp) /\
  (closes (main Render w) = 0%nat \/
   exists requestBody text,
     main Render w =
       [EvPost endpoint contentType requestBody; EvPrintln text; EvClose]).
Proof.
  destruct (main_cases w) as [(err & -> & H1)|[(rb & err & -> & H1 & H2)
                             |(rb & resp & text & -> & H1 & H2)]].
  - split; [|by left]. split; [discriminate|].
    intros (rb & resp & H & _). congruence.
  - split; [|by left]. split; [discriminate|].
    intros (rb' & resp & H & H'). congruence.
  - split; [|right; by exists rb, text]. split; [|done].
    intros _. by exists rb, resp.
Qed.

(** X10.  A run that decodes at least one record prints the report and
    nothing else, and the report is the same in whatever order [range]
    yields the days. *)
Theorem report_run (w : World) (requestBody : string)
    (response : GraphQLResponse) :
  Decoded w requestBody response ->
  AiringSchedules response <> [] ->
  let showsByDay := organizeShowsByDay (AiringSchedules response) in
  mapRange w showsByDay ≡ₚ keysOf showsByDay ->
  main Render w =
    [EvPost endpoint contentType requestBody;
     EvPrintln (Render appStyle
       (builderString (renderPieces Render (keysOf showsByDay) showsByDay)));
     EvClose].
Proof.
  intros Hd Hne. cbv zeta. intros Hrange.
  rewrite (main_decoded _ _ _ _ Hd). cbv zeta.
  destruct (Nat.eqb_spec (size (organizeShowsByDay (AiringSchedules response))) 0)
    as [Hz|_].
  { by apply map_size_empty_iff, organize_empty_iff in Hz. }
  unfold renderOutput, renderPieces. cbv zeta.
  by rewrite (sortedDays_order_irrelevant _ _ Hrange).
Qed.

End Runs.

(** ** Further theorems on concrete runs *)

Lemma buckets_never_empty_witness :
  organizeShowsByDay sample !! Date 2024 5 4 0 0 0 0 = None.
Proof.
  apply (proj1 (buckets_never_empty sample (Date 2024 5 4 0 0 0 0))).
  intros schedule Hin.
  repeat (apply elem_of_cons in Hin as [->|Hin]);
    [vm_compute; discriminate..|by apply elem_of_nil in Hin].
Defined.

Lemma at_most_eight_days_witness :
  (size (organizeShowsByDay sample) <= 8)%nat.
Proof.
  destruct (at_most_eight_days (mkTime 1714737700 0) sample) as [H _].
  - intros schedule Hin.
    repeat (apply elem_of_cons in Hin as [->|Hin]);
      [vm_compute; split; reflexivity..|by apply elem_of_nil in Hin].
  - exact H.
Defined.

Lemma report_keeps_input_order_witness :
  entryTexts (renderPieces plain [may01; may03; may02] (organizeShowsByDay sample))
  = map (fun schedule => renderEntry plain (scheduleShow schedule)) sample.
Proof.
  apply (report_keeps_input_order plain sample [may01; may03; may02]).
  - repeat constructor; vm_compute; discriminate.
  - apply sample_keys.
Defined.

Lemma gaps_only_between_days_witness :
  countPieces isGap
    (renderPieces plain [may01; may03; may02] (organizeShowsByDay sample)) = 2%nat.
Proof.
  destruct (gaps_only_between_days plain [may01; may03; may02]
              (organizeShowsByDay sample)) as [H _].
  - discriminate.
  - exact H.
Defined.

Lemma scores_are_not_clamped_witness :
  renderScore plain 150 = "★ 150/100" /\ statusEmoji 150 = "🌟".
Proof.
  destruct (scores_are_not_clamped plain 150) as (H1 & H2 & _).
  split; [apply H1|apply H2]; lia.
Defined.

Lemma report_run_witness :
  main plain (cannedWorld (Unix 1714737700) (inl "request")
                (inl {| Body := inl "reply" |})
                (inl {| AiringSchedules := sample |}))
  = [EvPost endpoint contentType "request";
     EvPrintln (builderString
       (renderPieces plain (keysOf (organizeShowsByDay sample))
          (organizeShowsByDay sample)));
     EvClose].
Proof.
  apply (report_run plain _ "request" {| AiringSchedules := sample |}).
  - exists {| Body := inl "reply" |}, "reply". repeat split; reflexivity.
  - discriminate.
  - reflexivity.
Defined.
